(** * Stripe sandbox server: request handlers and webhook dispatcher

    A shallow embedding of [payments.js], [customers.js] and [webhook.js].
    The handlers are JavaScript functions over untyped JSON values that
    log to the console, call the payment processor's SDK and answer
    through the Express response object.  They are modelled as
    computations in a small state-and-exception monad over a [world]
    that records the console output, the SDK calls and the responses
    sent. *)

From Stdlib Require Import String Ascii List Bool ZArith QArith Lia DecimalString.
Import ListNotations.

Local Open Scope string_scope.
Local Close Scope Q_scope.
Local Open Scope list_scope.
Local Set Warnings "-register-all".

(** ** JavaScript values *)

(** The values [JSON.parse] and the SDK hand to the handlers.  A number
    is represented by the rational it denotes; an object keeps its
    properties in insertion order. *)
Inductive jsval : Type :=
| JUndefined
| JNull
| JBool (b : bool)
| JNum (q : Q)
| JStr (s : string)
| JArr (l : list jsval)
| JObj (props : list (string * jsval)).

Definition object := list (string * jsval).

(** Own-property lookup in an object. *)
Fixpoint lookup (k : string) (o : object) : option jsval :=
  match o with
  | [] => None
  | (k', v) :: rest => if String.eqb k k' then Some v else lookup k rest
  end.

(** [o[k] = v] on an object literal under construction: an existing
    property keeps its position and takes the new value, a new one is
    appended. *)
Fixpoint set_prop (k : string) (v : jsval) (o : object) : object :=
  match o with
  | [] => [(k, v)]
  | (k', v') :: rest =>
      if String.eqb k k' then (k, v) :: rest else (k', v') :: set_prop k v rest
  end.

Definition field (k : string) (o : object) : jsval :=
  match lookup k o with
  | Some v => v
  | None => JUndefined
  end.

Definition is_nullish (v : jsval) : bool :=
  match v with
  | JUndefined | JNull => true
  | _ => false
  end.

(** [ToBoolean]: what [!v], [v || w] and [v ? a : b] test. *)
Definition truthy (v : jsval) : bool :=
  match v with
  | JUndefined | JNull => false
  | JBool b => b
  | JNum q => negb (Qeq_bool q 0)
  | JStr s => negb (String.eqb s "")
  | JArr _ | JObj _ => true
  end.

(** Whether [ToPrimitive] succeeds on a value, that is, whether it can
    be converted to a string or a number.  An object from [JSON.parse]
    converts through the inherited [toString] unless it has a property
    of that name, which is never callable; an array converts by joining
    its elements, skipping [null] and [undefined]. *)
Fixpoint printable (v : jsval) : bool :=
  match v with
  | JArr l => forallb (fun x => is_nullish x || printable x) l
  | JObj o =>
      match lookup "toString" o with
      | Some _ => false
      | None => true
      end
  | _ => true
  end.

(** No property named [toString] at any depth. *)
Fixpoint toString_free (v : jsval) : bool :=
  match v with
  | JArr l => forallb toString_free l
  | JObj o =>
      forallb (fun kv => negb (String.eqb (fst kv) "toString")
                         && toString_free (snd kv)) o
  | _ => true
  end.


(** The engine primitives the handlers rely on but this development
    does not re-implement: number formatting and parsing, and the
    [Date] conversions. *)
Class Runtime : Type := {
  (** [Number.prototype.toString] *)
  NumberToString : Q -> string;
  (** [StringToNumber]; [None] stands for [NaN] *)
  StringToNumber : string -> option Q;
  (** [new Date().toISOString()] *)
  Date_now_toISOString : string;
  (** [new Date(v * 1000).toISOString()]; [None] is the [RangeError]
      raised for an invalid date *)
  Date_of_seconds_toISOString : jsval -> option string
}.

Section Coercions.
Context {rt : Runtime}.

Definition join_comma (l : list string) : string := String.concat "," l.

(** [ToString], as applied by template literals and string
    concatenation. *)
Fixpoint ToString (v : jsval) : string :=
  match v with
  | JUndefined => "undefined"
  | JNull => "null"
  | JBool true => "true"
  | JBool false => "false"
  | JNum q => NumberToString q
  | JStr s => s
  | JArr l =>
      join_comma
        (map (fun x => if is_nullish x then "" else ToString x) l)
  | JObj _ => "[object Object]"
  end.

(** [ToNumber]; [None] stands for [NaN]. *)
Definition ToNumber (v : jsval) : option Q :=
  match v with
  | JUndefined => None
  | JNull => Some 0%Q
  | JBool b => Some (if b then 1%Q else 0%Q)
  | JNum q => Some q
  | JStr s => StringToNumber s
  | JArr _ | JObj _ => StringToNumber (ToString v)
  end.

(** [v <= 0] for a value that can be converted to a primitive
    ([printable]; the comparison throws for the others): false when
    [v] converts to [NaN]. *)
Definition le_zero (v : jsval) : bool :=
  match ToNumber v with
  | Some q => Qle_bool q 0
  | None => false
  end.
End Coercions.

(** Own enumerable properties, as copied by object spread [{...v}].
    A string is spread one property per character of [string], which
    is what JavaScript does for ASCII strings. *)
Definition index_key (i : nat) : string :=
  NilEmpty.string_of_uint (Nat.to_uint i).

Fixpoint indexed {A : Type} (f : A -> jsval) (i : nat) (l : list A) : object :=
  match l with
  | [] => []
  | x :: rest => (index_key i, f x) :: indexed f (S i) rest
  end.

Definition own_properties (v : jsval) : object :=
  match v with
  | JObj o => o
  | JArr l => indexed (fun x => x) 0 l
  | JStr s => indexed (fun c => JStr (String c EmptyString)) 0 (list_ascii_of_string s)
  | _ => []
  end.

(** [{...src, <props of o>}] starting from the empty literal. *)
Definition spread (src : jsval) : object :=
  fold_left (fun acc kv => set_prop (fst kv) (snd kv) acc) (own_properties src) [].

(** ** The world the handlers act on *)

Inductive stream : Type := stdout | stderr.

(** One console call.  The text is kept as the pieces of the template
    literal (or the argument list), each interpolated expression next to
    the value it is computed from. *)
Inductive piece : Type :=
| Lit (s : string)
| Interp (v : jsval)          (* ${v} *)
| InterpDiv100 (v : jsval)    (* ${v / 100} *)
| InterpJson (v : jsval)      (* ${JSON.stringify(v)} *)
| InterpUpper (s : string).   (* ${s.toUpperCase()} *)

Definition logline : Type := stream * list piece.

(** A call to the payment processor's SDK. *)
Inductive call : Type :=
| PaymentIntentsCreate (params : object)
| PaymentIntentsRetrieve (id : string)
| CustomersCreate (params : object).

Record world : Type := {
  log : list logline;                  (* console output, oldest first *)
  calls : list call;                   (* SDK calls made *)
  responses : list (nat * jsval);      (* status and JSON body sent *)
  entered : list (option string)       (* switch clauses entered *)
}.

Definition empty_world : world :=
  {| log := []; calls := []; responses := []; entered := [] |}.

(** A thrown value; [message] and [type] are what the handlers read. *)
Record exn : Type := { message : jsval; type : jsval }.

Definition TypeError (msg : string) : exn :=
  {| message := JStr msg; type := JUndefined |}.

Inductive outcome (A : Type) : Type :=
| Ret (a : A)
| Throw (e : exn).
Arguments Ret {A} a.
Arguments Throw {A} e.

(** Computations: the world survives an exception. *)
Definition M (A : Type) : Type := world -> outcome A * world.

Definition ret {A} (a : A) : M A := fun w => (Ret a, w).
Definition throw {A} (e : exn) : M A := fun w => (Throw e, w).
Definition bind {A B} (m : M A) (k : A -> M B) : M B :=
  fun w =>
    match m w with
    | (Ret a, w') => k a w'
    | (Throw e, w') => (Throw e, w')
    end.
Definition try_catch {A} (m : M A) (handler : exn -> M A) : M A :=
  fun w =>
    match m w with
    | (Ret a, w') => (Ret a, w')
    | (Throw e, w') => handler e w'
    end.
Definition lift {A} (r : outcome A) : M A := fun w => (r, w).

Declare Scope js_scope.
Delimit Scope js_scope with js.
Notation "x <- m ;; k" := (bind m (fun x => k))
  (at level 61, m at next level, right associativity) : js_scope.
Notation "m ;; k" := (bind m (fun _ => k))
  (at level 61, right associativity) : js_scope.
Local Open Scope js_scope.

Definition console_log (text : list piece) : M unit :=
  fun w => (Ret tt, {| log := log w ++ [(stdout, text)]; calls := calls w;
                       responses := responses w; entered := entered w |}).
Definition console_error (text : list piece) : M unit :=
  fun w => (Ret tt, {| log := log w ++ [(stderr, text)]; calls := calls w;
                       responses := responses w; entered := entered w |}).
(** [res.status(code).json(body)] *)
Definition res_status_json (code : nat) (body : jsval) : M unit :=
  fun w => (Ret tt, {| log := log w; calls := calls w;
                       responses := responses w ++ [(code, body)];
                       entered := entered w |}).
(** [res.json(body)]: status 200 *)
Definition res_json (body : jsval) : M unit := res_status_json 200 body.
Definition sdk_call (c : call) : M unit :=
  fun w => (Ret tt, {| log := log w; calls := calls w ++ [c];
                       responses := responses w; entered := entered w |}).
Definition enter (l : option string) : M unit :=
  fun w => (Ret tt, {| log := log w; calls := calls w;
                       responses := responses w; entered := entered w ++ [l] |}).

(** Property read [v.k].  Only the names the handlers read are meant:
    none of them is a built-in property of a string, array, number or
    boolean, so those yield [undefined]. *)
Definition get (v : jsval) (k : string) : M jsval :=
  match v with
  | JUndefined =>
      throw (TypeError ("Cannot read properties of undefined (reading '" ++ k ++ "')"))
  | JNull =>
      throw (TypeError ("Cannot read properties of null (reading '" ++ k ++ "')"))
  | JObj o => ret (field k o)
  | _ => ret JUndefined
  end.

(** Optional chaining [v?.k]. *)
Definition get_opt (v : jsval) (k : string) : M jsval :=
  if is_nullish v then ret JUndefined else get v k.

(** [v || w] *)
Definition or_else (v w : jsval) : jsval := if truthy v then v else w.

(** [ToPrimitive], applied to a value that is interpolated in a template
    literal or used as a number. *)
Definition to_primitive (v : jsval) : M unit :=
  if printable v then ret tt
  else throw (TypeError "Cannot convert object to primitive value").

(** [${v}] and [${v / 100}] for a value that comes with a request or an
    event. *)
Definition interp (v : jsval) : M piece :=
  to_primitive v ;; ret (Interp v).
Definition interp_div100 (v : jsval) : M piece :=
  to_primitive v ;; ret (InterpDiv100 v).

(** Destructuring default [x = d]: applies to [undefined] only. *)
Definition default_to (d v : jsval) : jsval :=
  match v with
  | JUndefined => d
  | _ => v
  end.

(** ** The payment processor's SDK *)

(** The client library is outside the repository; the handlers are
    verified against any behaviour of its four entry points.  An API
    call resolves with an object of the processor, whose identifiers and
    status fields are strings, or throws an error whose message is a
    string. *)
Class Processor : Type := {
  paymentIntents_create : object -> outcome object;
  paymentIntents_retrieve : string -> outcome object;
  customers_create : object -> outcome object;
  (** [stripe.webhooks.constructEvent(rawBody, signatureHeader, secret)]:
      the parsed body, or a verification error *)
  webhooks_constructEvent : string -> jsval -> jsval -> outcome jsval
}.

(** ** webhook.js *)

Module Webhook.

Record request : Type := {
  stripe_signature : jsval;   (* req.headers['stripe-signature'] *)
  raw_body : string           (* req.body, the raw buffer *)
}.

Definition payment_intent_succeeded (event : jsval) : M unit :=
  data <- get event "data" ;;
  paymentIntent <- get data "object" ;;
  console_log [Lit "✅ Payment succeeded!"] ;;
  amount <- get paymentIntent "amount" ;;
  amount_100 <- interp_div100 amount ;;
  console_log [Lit "   Amount:   £"; amount_100] ;;
  id <- get paymentIntent "id" ;;
  id_text <- interp id ;;
  console_log [Lit "   PI ID:    "; id_text] ;;
  customer <- get paymentIntent "customer" ;;
  customer_text <- interp (or_else customer (JStr "guest")) ;;
  console_log [Lit "   Customer: "; customer_text] ;;
  metadata <- get paymentIntent "metadata" ;;
  console_log [Lit "   Metadata: "; InterpJson metadata].

Definition payment_intent_payment_failed (event : jsval) : M unit :=
  data <- get event "data" ;;
  paymentIntent <- get data "object" ;;
  error <- get paymentIntent "last_payment_error" ;;
  console_log [Lit "❌ Payment failed!"] ;;
  id <- get paymentIntent "id" ;;
  id_text <- interp id ;;
  console_log [Lit "   PI ID:        "; id_text] ;;
  code <- get_opt error "code" ;;
  code_text <- interp code ;;
  console_log [Lit "   Error code:   "; code_text] ;;
  decline_code <- get_opt error "decline_code" ;;
  decline_text <- interp decline_code ;;
  console_log [Lit "   Decline code: "; decline_text] ;;
  msg <- get_opt error "message" ;;
  msg_text <- interp msg ;;
  console_log [Lit "   Message:      "; msg_text].

Definition payment_intent_requires_action (event : jsval) : M unit :=
  data <- get event "data" ;;
  paymentIntent <- get data "object" ;;
  console_log [Lit "🔐 3DS Authentication required"] ;;
  id <- get paymentIntent "id" ;;
  id_text <- interp id ;;
  console_log [Lit "   PI ID:  "; id_text] ;;
  next_action <- get paymentIntent "next_action" ;;
  action <- get_opt next_action "type" ;;
  action_text <- interp action ;;
  console_log [Lit "   Action: "; action_text].

Definition customer_created (event : jsval) : M unit :=
  data <- get event "data" ;;
  customer <- get data "object" ;;
  id <- get customer "id" ;;
  id_text <- interp id ;;
  email <- get customer "email" ;;
  email_text <- interp email ;;
  console_log [Lit "👤 New customer created: "; id_text; Lit " | "; email_text].

Definition charge_dispute_created (event : jsval) : M unit :=
  data <- get event "data" ;;
  dispute <- get data "object" ;;
  console_log [Lit "⚠️  Dispute opened!"] ;;
  id <- get dispute "id" ;;
  id_text <- interp id ;;
  console_log [Lit "   Dispute ID: "; id_text] ;;
  amount <- get dispute "amount" ;;
  amount_100 <- interp_div100 amount ;;
  console_log [Lit "   Amount:     £"; amount_100] ;;
  reason <- get dispute "reason" ;;
  reason_text <- interp reason ;;
  console_log [Lit "   Reason:     "; reason_text].

Definition unhandled (event : jsval) : M unit :=
  type <- get event "type" ;;
  type_text <- interp type ;;
  console_log [Lit "ℹ️  Unhandled event type: "; type_text].

(** A clause of the [switch]: its [case] label ([None] for
    [default]), its statements, and whether they end in [break]. *)
Record clause : Type := {
  label : option string;
  body : jsval -> M unit;
  breaks : bool
}.

Definition clauses : list clause :=
  [ {| label := Some "payment_intent.succeeded";
       body := payment_intent_succeeded; breaks := true |};
    {| label := Some "payment_intent.payment_failed";
       body := payment_intent_payment_failed; breaks := true |};
    {| label := Some "payment_intent.requires_action";
       body := payment_intent_requires_action; breaks := true |};
    {| label := Some "customer.created";
       body := customer_created; breaks := true |};
    {| label := Some "charge.dispute.created";
       body := charge_dispute_created; breaks := true |};
    {| label := None; body := unhandled; breaks := false |} ].

(** [d === label] for a [case] clause. *)
Definition selects (d : jsval) (c : clause) : bool :=
  match label c, d with
  | Some l, JStr s => String.eqb s l
  | _, _ => false
  end.

Definition is_default (c : clause) : bool :=
  match label c with
  | None => true
  | Some _ => false
  end.

(** The clauses from the first one satisfying [p] on. *)
Fixpoint from_first (p : clause -> bool) (cs : list clause) : option (list clause) :=
  match cs with
  | [] => None
  | c :: rest => if p c then Some cs else from_first p rest
  end.

(** Statements run in clause order until a [break]. *)
Fixpoint run_from (cs : list clause) (event : jsval) : M unit :=
  match cs with
  | [] => ret tt
  | c :: rest =>
      enter (label c) ;;
      body c event ;;
      if breaks c then ret tt else run_from rest event
  end.

(** The [switch] statement: the first [case] strictly equal to the
    discriminant, else [default]; then fall through. *)
Definition switch (d : jsval) (cs : list clause) (event : jsval) : M unit :=
  match from_first (selects d) cs with
  | Some suffix => run_from suffix event
  | None =>
      match from_first is_default cs with
      | Some suffix => run_from suffix event
      | None => ret tt
      end
  end.

(** [switch (event.type) { ... }] *)
Definition dispatch (event : jsval) : M unit :=
  type <- get event "type" ;;
  switch type clauses event.

Section Handler.
Context {rt : Runtime} {sdk : Processor}.
(** [process.env.STRIPE_WEBHOOK_SECRET] *)
Variable webhookSecret : jsval.

(** [{ received: true, eventType: event.type, eventId: event.id }] *)
Definition acknowledgement (event : jsval) : M jsval :=
  type <- get event "type" ;;
  id <- get event "id" ;;
  ret (JObj [("received", JBool true); ("eventType", type); ("eventId", id)]).

Definition internal_error : jsval :=
  JObj [("error", JStr "Internal error processing webhook")].

(** The template literal of the first log line; it is evaluated
    before either [try] block is entered. *)
Definition received_line (event : jsval) : M (list piece) :=
  type <- get event "type" ;;
  type_text <- interp type ;;
  id <- get event "id" ;;
  id_text <- interp id ;;
  ret [Lit "📨 Webhook received: "; type_text; Lit " | ID: "; id_text].

Definition dispatch_error_line (err : exn) : list piece :=
  [Lit "❌ Error processing webhook event: "; Interp (message err)].

Definition handleWebhook (req : request) : M unit :=
  let sig := stripe_signature req in
  match webhooks_constructEvent (raw_body req) sig webhookSecret with
  | Throw err =>
      console_error [Lit "❌ Webhook signature verification failed: ";
                     Interp (message err)] ;;
      res_status_json 400
        (JObj [("error", JStr ("Webhook Error: " ++ ToString (message err)))])
  | Ret event =>
      line <- received_line event ;;
      console_log line ;;
      try_catch
        (dispatch event ;;
         body <- acknowledgement event ;;
         res_json body)
        (fun err =>
           console_error (dispatch_error_line err) ;;
           res_status_json 500 internal_error)
  end.
End Handler.

End Webhook.

(** ** payments.js *)

Module Payments.

Section Handlers.
Context {rt : Runtime} {sdk : Processor}.

(** [req.body] after [express.json()] *)
Record request : Type := { body : object }.

Definition invalid_amount : jsval :=
  JObj [("error", JStr "Amount must be a positive integer (in pence/cents)")].

(** [currency.toUpperCase()] inside the log template *)
Definition toUpperCase (currency : jsval) : M piece :=
  match currency with
  | JStr s => ret (InterpUpper s)
  | JUndefined =>
      throw (TypeError "Cannot read properties of undefined (reading 'toUpperCase')")
  | JNull =>
      throw (TypeError "Cannot read properties of null (reading 'toUpperCase')")
  | _ => throw (TypeError "currency.toUpperCase is not a function")
  end.

Definition paymentIntentParams (amount currency customerId metadata : jsval) : object :=
  let params :=
    [("amount", amount);
     ("currency", currency);
     ("automatic_payment_methods", JObj [("enabled", JBool true)]);
     ("metadata",
      JObj (set_prop "timestamp" (JStr Date_now_toISOString) (spread metadata)))] in
  if truthy customerId then set_prop "customer" customerId params else params.

(** The comparison [amount <= 0] converts [amount] to a primitive; the
    handler is modelled for the amounts that can be converted
    ([printable]). *)
Definition createPaymentIntent (req : request) : M unit :=
  let amount := field "amount" (body req) in
  let currency := default_to (JStr "gbp") (field "currency" (body req)) in
  let customerId := field "customerId" (body req) in
  let metadata := default_to (JObj []) (field "metadata" (body req)) in
  if negb (truthy amount) || le_zero amount then
    res_status_json 400 invalid_amount
  else
    try_catch
      (let params := paymentIntentParams amount currency customerId metadata in
       sdk_call (PaymentIntentsCreate params) ;;
       paymentIntent <- lift (paymentIntents_create params) ;;
       upper <- toUpperCase currency ;;
       console_log [Lit "💳 PaymentIntent created: ";
                    Interp (field "id" paymentIntent);
                    Lit " | £"; InterpDiv100 amount; Lit " "; upper;
                    Lit " | status: "; Interp (field "status" paymentIntent)] ;;
       res_json
         (JObj [("paymentIntentId", field "id" paymentIntent);
                ("clientSecret", field "client_secret" paymentIntent);
                ("amount", field "amount" paymentIntent);
                ("currency", field "currency" paymentIntent);
                ("status", field "status" paymentIntent)]))
      (fun error =>
         console_error [Lit "❌ PaymentIntent creation failed:";
                        Interp (message error)] ;;
         res_status_json 400
           (JObj [("error", message error); ("type", type error)])).

Definition invalid_id : jsval :=
  JObj [("error", JStr "Invalid PaymentIntent ID. Should start with pi_")].

(** [new Date(seconds * 1000).toISOString()] *)
Definition date_toISOString (seconds : jsval) : M jsval :=
  match Date_of_seconds_toISOString seconds with
  | Some iso => ret (JStr iso)
  | None => throw {| message := JStr "Invalid time value"; type := JUndefined |}
  end.

Definition lastError (last_payment_error : jsval) : M jsval :=
  if truthy last_payment_error then
    code <- get last_payment_error "code" ;;
    msg <- get last_payment_error "message" ;;
    declineCode <- get last_payment_error "decline_code" ;;
    ret (JObj [("code", code); ("message", msg); ("declineCode", declineCode)])
  else ret JNull.

(** [id] is the route parameter [req.params.id]. *)
Definition getPaymentStatus (id : string) : M unit :=
  if negb (truthy (JStr id)) || negb (String.prefix "pi_" id) then
    res_status_json 400 invalid_id
  else
    try_catch
      (sdk_call (PaymentIntentsRetrieve id) ;;
       paymentIntent <- lift (paymentIntents_retrieve id) ;;
       created <- date_toISOString (field "created" paymentIntent) ;;
       last <- lastError (field "last_payment_error" paymentIntent) ;;
       res_json
         (JObj [("id", field "id" paymentIntent);
                ("status", field "status" paymentIntent);
                ("amount", field "amount" paymentIntent);
                ("currency", field "currency" paymentIntent);
                ("customer", field "customer" paymentIntent);
                ("metadata", field "metadata" paymentIntent);
                ("created", created);
                ("lastError", last)]))
      (fun error =>
         console_error [Lit "❌ Retrieve PaymentIntent failed:";
                        Interp (message error)] ;;
         res_status_json 404 (JObj [("error", message error)])).
End Handlers.

End Payments.

(** ** customers.js *)

Module Customers.

Section Handlers.
Context {rt : Runtime} {sdk : Processor}.

Record request : Type := { body : object }.

Definition email_required : jsval :=
  JObj [("error", JStr "Email is required to create a Customer")].

Definition customerParams (email name phone metadata : jsval) : object :=
  [("email", email);
   ("name", name);
   ("phone", phone);
   ("metadata",
    JObj (set_prop "created_at" (JStr Date_now_toISOString) (spread metadata)))].

Definition createCustomer (req : request) : M unit :=
  let email := field "email" (body req) in
  let name := field "name" (body req) in
  let phone := field "phone" (body req) in
  let metadata := default_to (JObj []) (field "metadata" (body req)) in
  if negb (truthy email) then
    res_status_json 400 email_required
  else
    try_catch
      (let params := customerParams email name phone metadata in
       sdk_call (CustomersCreate params) ;;
       customer <- lift (customers_create params) ;;
       email_text <- interp email ;;
       console_log [Lit "👤 Customer created: "; Interp (field "id" customer);
                    Lit " | "; email_text] ;;
       created <- Payments.date_toISOString (field "created" customer) ;;
       res_json
         (JObj [("customerId", field "id" customer);
                ("email", field "email" customer);
                ("name", field "name" customer);
                ("created", created);
                ("dashboardUrl",
                 JStr ("https://dashboard.stripe.com/test/customers/"
                       ++ ToString (field "id" customer)))]))
      (fun error =>
         console_error [Lit "❌ Customer creation failed:";
                        Interp (message error)] ;;
         res_status_json 400
           (JObj [("error", message error); ("type", type error)])).
End Handlers.

End Customers.

(** ** Signature verification *)

Module Verifier.

Section Spec.
(** The keyed digest, the header and JSON parsers and the clock are
    those of the client library and the platform. *)
Variable hmac : string -> string -> string.              (* secret, message *)
Variable parse_header : string -> option (Z * list string).  (* timestamp, digests *)
Variable parse_event : string -> option jsval.             (* JSON.parse *)
Variable received_at : Z.                                (* seconds *)

(** The tolerance window: five minutes, in seconds. *)
Definition DEFAULT_TOLERANCE : Z := 300.

(** [timestamp + "." + rawBody] *)
Definition signed_payload (timestamp : Z) (rawBody : string) : string :=
  NilZero.string_of_int (Z.to_int timestamp) ++ "." ++ rawBody.

Definition verification_error (msg : string) : exn :=
  {| message := JStr msg; type := JStr "StripeSignatureVerificationError" |}.

(** Modelled from the spec: [stripe.webhooks.constructEvent], the
    verification routine of the processor's client library, which is
    not among the sources.  Section 4.1: the signature header
    encodes a timestamp and one or more HMAC digests computed over
    [timestamp + "." + rawBody] with the shared secret; the digest
    is recomputed over the exact raw bytes; a timestamp older than
    the tolerance window is rejected; the result is a verified event
    object or a verification failure. *)
Definition constructEvent (rawBody : string) (sig secret : jsval) : outcome jsval :=
  match sig, secret with
  | JStr header, JStr key =>
      match parse_header header with
      | None =>
          Throw (verification_error
                   "Unable to extract timestamp and signatures from header")
      | Some (timestamp, digests) =>
          if negb (existsb (String.eqb (hmac key (signed_payload timestamp rawBody)))
                           digests)
          then Throw (verification_error
                        "No signatures found matching the expected signature for payload")
          else if (received_at - timestamp >? DEFAULT_TOLERANCE)%Z
          then Throw (verification_error "Timestamp outside the tolerance zone")
          else match parse_event rawBody with
               | Some event => Ret event
               | None => Throw {| message := JStr "Unexpected token in JSON";
                                  type := JUndefined |}
               end
      end
  | _, _ =>
      Throw (verification_error "No signature header or signing secret provided")
  end.

(** A client whose webhook verifier is the routine above. *)
Definition with_verifier (sdk : Processor) : Processor :=
  {| paymentIntents_create := @paymentIntents_create sdk;
     paymentIntents_retrieve := @paymentIntents_retrieve sdk;
     customers_create := @customers_create sdk;
     webhooks_constructEvent := constructEvent |}.
End Spec.

End Verifier.

(** ** test-scenarios.js *)

(** The further properties of a thrown value that the scenario script
    prints. *)
Class ErrorDetails : Type := {
  error_code : exn -> jsval;   (* error.code *)
  error_raw : exn -> jsval     (* error.raw *)
}.

Module Scenarios.

Definition TEST_PAYMENT_METHODS : object :=
  [("success", JStr "pm_card_visa");
   ("genericDecline", JStr "pm_card_visa_chargeDeclined");
   ("insufficientFunds", JStr "pm_card_visa_chargeDeclinedInsufficientFunds");
   ("fraudDecline", JStr "pm_card_visa_chargeDeclinedFraudulent");
   ("uk_visa", JStr "pm_card_gb_visa")].

(** [s.repeat(n)] *)
Fixpoint repeat_string (s : string) (n : nat) : string :=
  match n with
  | O => ""
  | S n' => s ++ repeat_string s n'
  end.

Definition newline : string := String (ascii_of_nat 10) EmptyString.

(** The separator printed before each scenario. *)
Definition rule (c : string) : list piece :=
  [Lit newline; Interp (JStr (repeat_string c 60))].

Definition return_url : jsval := JStr "https://example.com/return".

Section Script.
Context {rt : Runtime} {sdk : Processor} {details : ErrorDetails}.

Definition testPaymentParams (label paymentMethod amount currency : jsval) : object :=
  [("amount", amount);
   ("currency", currency);
   ("payment_method", paymentMethod);
   ("confirm", JBool true);
   ("return_url", return_url);
   ("metadata", JObj [("test_scenario", label);
                      ("timestamp", JStr Date_now_toISOString)])].

(** [amount] and [currency] are [undefined] when the caller omits them. *)
Definition testPayment (label paymentMethod amount currency : jsval) : M jsval :=
  let amount := default_to (JNum 5000) amount in
  let currency := default_to (JStr "gbp") currency in
  console_log (rule "─") ;;
  label_text <- interp label ;;
  console_log [Lit "🧪 TEST: "; label_text] ;;
  amount_100 <- interp_div100 amount ;;
  upper <- Payments.toUpperCase currency ;;
  console_log [Lit "   Amount: £"; amount_100; Lit " "; upper] ;;
  method_text <- interp paymentMethod ;;
  console_log [Lit "   PaymentMethod: "; method_text] ;;
  try_catch
    (let params := testPaymentParams label paymentMethod amount currency in
     sdk_call (PaymentIntentsCreate params) ;;
     paymentIntent <- lift (paymentIntents_create params) ;;
     console_log [Lit "   ✅ Result:  "; Interp (field "status" paymentIntent)] ;;
     console_log [Lit "   📋 PI ID:  "; Interp (field "id" paymentIntent)] ;;
     ret (JObj [("success", JBool true);
                ("id", field "id" paymentIntent);
                ("status", field "status" paymentIntent)]))
    (fun error =>
       console_log [Lit "   ❌ Result:  "; Interp (type error)] ;;
       console_log [Lit "   📋 Code:   "; Interp (error_code error)] ;;
       decline_code <- get_opt (error_raw error) "decline_code" ;;
       (if truthy decline_code then
          decline <- get (error_raw error) "decline_code" ;;
          console_log [Lit "   📋 Decline: "; Interp decline]
        else ret tt) ;;
       console_log [Lit "   📋 Message: "; Interp (message error)] ;;
       ret (JObj [("success", JBool false);
                  ("code", error_code error);
                  ("message", message error)])).

Definition demoCustomerParams : object :=
  [("email", JStr "test@example.com");
   ("name", JStr "Test User");
   ("metadata", JObj [("internal_user_id", JStr "USR-DEMO-001")])].

Definition linkedPaymentParams (customerId : jsval) : object :=
  [("amount", JNum 9900);
   ("currency", JStr "gbp");
   ("customer", customerId);
   ("payment_method", field "success" TEST_PAYMENT_METHODS);
   ("confirm", JBool true);
   ("return_url", return_url);
   ("metadata", JObj [("test_scenario", JStr "customer_linked_payment");
                      ("order_ref", JStr "ORD-DEMO-001")])].

(** Falls off the end of the [catch] block, hence [undefined], when a
    call fails. *)
Definition testCustomerFlow : M jsval :=
  console_log (rule "─") ;;
  console_log [Lit "🧪 TEST: Customer creation + linked payment"] ;;
  try_catch
    (sdk_call (CustomersCreate demoCustomerParams) ;;
     customer <- lift (customers_create demoCustomerParams) ;;
     console_log [Lit "   👤 Customer created: "; Interp (field "id" customer)] ;;
     let params := linkedPaymentParams (field "id" customer) in
     sdk_call (PaymentIntentsCreate params) ;;
     paymentIntent <- lift (paymentIntents_create params) ;;
     console_log [Lit "   💳 Payment status: "; Interp (field "status" paymentIntent)] ;;
     console_log [Lit "   📋 PI ID: "; Interp (field "id" paymentIntent)] ;;
     console_log [Lit "   🔗 Customer: "; Interp (field "customer" paymentIntent)] ;;
     console_log [Lit (newline ++ "   👉 View in dashboard: https://dashboard.stripe.com/test/customers/");
                  Interp (field "id" customer)] ;;
     ret (JObj [("customerId", field "id" customer);
                ("paymentIntentId", field "id" paymentIntent)]))
    (fun error =>
       console_error [Lit "   ❌ Error: "; Interp (message error)] ;;
       ret JUndefined).

(** No [try] here: an exception leaves the function. *)
Definition testRetrieve (paymentIntentId : string) : M unit :=
  console_log (rule "─") ;;
  console_log [Lit "🧪 TEST: Retrieve PaymentIntent — "; Interp (JStr paymentIntentId)] ;;
  sdk_call (PaymentIntentsRetrieve paymentIntentId) ;;
  pi <- lift (paymentIntents_retrieve paymentIntentId) ;;
  console_log [Lit "   Status:   "; Interp (field "status" pi)] ;;
  console_log [Lit "   Amount:   £"; InterpDiv100 (field "amount" pi)] ;;
  created <- Payments.date_toISOString (field "created" pi) ;;
  console_log [Lit "   Created:  "; Interp created] ;;
  console_log [Lit "   Metadata: "; InterpJson (field "metadata" pi)].

(** What [testRetrieve] does with an id that is not a string is up to
    the client library. *)
Variable testRetrieve_other : jsval -> M unit.

Definition banner : list (list piece) :=
  [[Lit "╔══════════════════════════════════════════════════════════╗"];
   [Lit "║     Stripe Sandbox — Payment Scenarios Test Suite       ║"];
   [Lit "╚══════════════════════════════════════════════════════════╝"]].

Definition summary : list (list piece) :=
  [Lit newline :: [Interp (JStr (repeat_string "═" 60))];
   [Lit "📊 SUMMARY — All scenarios tested"];
   [Lit "   ✅ Successful payment flow"];
   [Lit "   ❌ Decline scenarios (generic, insufficient funds)"];
   [Lit "   🇬🇧 UK-specific card variant"];
   [Lit "   👤 Customer object creation + linked payment"];
   [Lit "   🔍 PaymentIntent retrieval + status inspection"];
   [Lit (newline ++ "👉 View all test payments in the Stripe Dashboard:")];
   [Lit "   https://dashboard.stripe.com/test/payments"];
   [Interp (JStr (repeat_string "═" 60)); Lit newline]].

Fixpoint console_log_all (texts : list (list piece)) : M unit :=
  match texts with
  | [] => ret tt
  | text :: rest => console_log text ;; console_log_all rest
  end.

Definition runAllScenarios : M unit :=
  console_log_all banner ;;
  successResult <- testPayment (JStr "Successful payment (Visa)")
                     (field "success" TEST_PAYMENT_METHODS) (JNum 5000) (JStr "gbp") ;;
  testPayment (JStr "Generic card decline")
    (field "genericDecline" TEST_PAYMENT_METHODS) (JNum 2000) (JStr "gbp") ;;
  testPayment (JStr "Insufficient funds decline")
    (field "insufficientFunds" TEST_PAYMENT_METHODS) (JNum 15000) (JStr "gbp") ;;
  testPayment (JStr "UK Visa card (GBP)")
    (field "uk_visa" TEST_PAYMENT_METHODS) (JNum 7500) (JStr "gbp") ;;
  customerResult <- testCustomerFlow ;;
  id <- get_opt successResult "id" ;;
  (if truthy id then
     match id with
     | JStr paymentIntentId => testRetrieve paymentIntentId
     | _ => testRetrieve_other id
     end
   else ret tt) ;;
  console_log_all summary.

End Script.

End Scenarios.

(** ** server.js *)

Module Server.

(** [process.env.PORT || 3000] *)
Definition PORT (env_PORT : jsval) : jsval := or_else env_PORT (JNum 3000).

(** [key?.substring(0, 14)] for an environment variable, which is a
    string or [undefined]; positions are counted in the characters of
    [string]. *)
Definition key_prefix (env_STRIPE_SECRET_KEY : jsval) : M jsval :=
  match env_STRIPE_SECRET_KEY with
  | JStr key => ret (JStr (String.substring 0 14 key))
  | JUndefined | JNull => ret JUndefined
  | _ => throw (TypeError "process.env.STRIPE_SECRET_KEY?.substring is not a function")
  end.

(** The callback of [app.listen]. *)
Definition on_listening (env_PORT env_STRIPE_SECRET_KEY : jsval) : M unit :=
  console_log [Lit "✅ Stripe sandbox server running on http://localhost:";
               Interp (PORT env_PORT)] ;;
  prefix <- key_prefix env_STRIPE_SECRET_KEY ;;
  console_log [Lit "🔑 Using Stripe key: "; Interp prefix; Lit "..."] ;;
  console_log [Lit "📌 Environment: Test mode (sandbox)"].

End Server.

(** ** Auxiliary notions used in the statements *)

(** A world extended by console lines and entered clauses only. *)
Definition extend (w : world) (lines : list logline) (ls : list (option string)) : world :=
  {| log := log w ++ lines; calls := calls w;
     responses := responses w; entered := entered w ++ ls |}.

(** A computation that only writes to the console, enters exactly the
    clauses [ls], and whose outcome does not depend on the world it
    starts in. *)
Definition traces {A} (ls : list (option string)) (m : M A) : Prop :=
  exists r lines, forall w, m w = (r, extend w lines ls).

(** [v.k] for a value that is neither [null] nor [undefined]. *)
Definition prop (k : string) (v : jsval) : jsval :=
  match v with
  | JObj o => field k o
  | _ => JUndefined
  end.

(** The discriminant equals one of the [case] labels. *)
Definition known_type (d : jsval) : bool :=
  existsb (Webhook.selects d) Webhook.clauses.

(** [event.data.object], [undefined] when it cannot be reached. *)
Definition payload (event : jsval) : jsval :=
  prop "object" (prop "data" event).

(** Whether a computation started in [w] ends in an exception. *)
Definition throws {A} (m : M A) (w : world) : bool :=
  match fst (m w) with
  | Throw _ => true
  | Ret _ => false
  end.

(** A number that is a positive integer. *)
Definition positive_integer (v : jsval) : bool :=
  match v with
  | JNum q => negb (Qle_bool q 0) && Pos.eqb (Qden (Qred q)) 1
  | _ => false
  end.

(** The client obtained from [sdk] by replacing the confirmation token
    of every created payment intent by [token]. *)
Definition with_client_secret (token : jsval) (sdk : Processor) : Processor :=
  {| paymentIntents_create := fun params =>
       match @paymentIntents_create sdk params with
       | Ret paymentIntent => Ret (set_prop "client_secret" token paymentIntent)
       | Throw e => Throw e
       end;
     paymentIntents_retrieve := @paymentIntents_retrieve sdk;
     customers_create := @customers_create sdk;
     webhooks_constructEvent := @webhooks_constructEvent sdk |}.

(** ** Concrete instances for the examples *)

Module Demo.

Definition runtime : Runtime :=
  {| NumberToString := fun _ => "0";
     StringToNumber := fun _ => None;
     Date_now_toISOString := "2024-05-01T12:00:00.000Z";
     Date_of_seconds_toISOString := fun _ => Some "2024-05-01T11:59:00.000Z" |}.

Definition paymentIntent : object :=
  [("id", JStr "pi_123"); ("client_secret", JStr "pi_123_secret_abc");
   ("amount", JNum 5000); ("currency", JStr "gbp");
   ("status", JStr "requires_payment_method"); ("created", JNum 1714564740)].

Definition customer : object :=
  [("id", JStr "cus_9"); ("email", JStr "user@example.com");
   ("name", JStr "Test User"); ("created", JNum 1714564740)].

Definition failed_event : object :=
  [("id", JStr "evt_2"); ("type", JStr "payment_intent.payment_failed");
   ("data", JObj [("object",
      JObj [("id", JStr "pi_123");
            ("last_payment_error",
             JObj [("code", JStr "card_declined");
                   ("decline_code", JStr "insufficient_funds");
                   ("message", JStr "Your card has insufficient funds.")])])])].

Definition unknown_event : object :=
  [("id", JStr "evt_3"); ("type", JStr "invoice.paid");
   ("data", JObj [("object", JObj [("id", JStr "in_1")])])].

(** A known event type without its [data] property. *)
Definition bare_event : object :=
  [("id", JStr "evt_4"); ("type", JStr "customer.created")].

(** An event whose type tag is an object that cannot be printed. *)
Definition odd_event : object :=
  [("id", JStr "evt_5"); ("type", JObj [("toString", JNum 1)])].

(** An event whose identifier cannot be printed. *)
Definition odd_id_event : object :=
  [("id", JObj [("toString", JNum 1)]); ("type", JStr "customer.created");
   ("data", JObj [("object", JObj [("id", JStr "cus_9")])])].

(** The raw body selects the event; any other body fails to verify;
    retrieval knows one payment intent. *)
Definition processor : Processor :=
  {| paymentIntents_create := fun _ => Ret paymentIntent;
     paymentIntents_retrieve := fun id =>
       if String.eqb id "pi_123" then Ret paymentIntent
       else Throw {| message := JStr ("No such payment_intent: '" ++ id ++ "'");
                     type := JStr "StripeInvalidRequestError" |};
     customers_create := fun _ => Ret customer;
     webhooks_constructEvent := fun rawBody _ _ =>
       if String.eqb rawBody "failed" then Ret (JObj failed_event)
       else if String.eqb rawBody "unknown" then Ret (JObj unknown_event)
       else if String.eqb rawBody "bare" then Ret (JObj bare_event)
       else if String.eqb rawBody "odd" then Ret (JObj odd_event)
       else if String.eqb rawBody "odd id" then Ret (JObj odd_id_event)
       else if String.eqb rawBody "null" then Ret JNull
       else Throw (Verifier.verification_error
                     "No signatures found matching the expected signature for payload") |}.

(** A toy keyed digest and a header format [t=<digest>] with the
    timestamp fixed at 1000, for running the verifier. *)
Definition hmac (key msg : string) : string := key ++ "/" ++ msg.

Definition parse_header (h : string) : option (Z * list string) :=
  match h with
  | String "t" (String "=" d) => Some (1000%Z, [d])
  | _ => None
  end.

Definition parse_event (rawBody : string) : option jsval :=
  if String.eqb rawBody "unknown" then Some (JObj unknown_event) else None.

End Demo.

(** [m], started in any world, ends with outcome [r] after making
    exactly the processor calls [cs]; besides that it only writes to the
    console. *)
Definition runs {A} (r : outcome A) (cs : list call) (m : M A) : Prop :=
  exists lines, forall w,
    m w = (r, {| log := log w ++ lines; calls := calls w ++ cs;
                 responses := responses w; entered := entered w |}).

(** The four card payments of the scenario suite, in the order it makes
    them. *)
Definition suite_payments {rt : Runtime} : list call :=
  map (fun scenario : string * string * Q =>
         let '(label, paymentMethod, amount) := scenario in
         PaymentIntentsCreate
           (Scenarios.testPaymentParams (JStr label) (JStr paymentMethod)
              (JNum amount) (JStr "gbp")))
      [("Successful payment (Visa)", "pm_card_visa", 5000%Q);
       ("Generic card decline", "pm_card_visa_chargeDeclined", 2000%Q);
       ("Insufficient funds decline",
        "pm_card_visa_chargeDeclinedInsufficientFunds", 15000%Q);
       ("UK Visa card (GBP)", "pm_card_gb_visa", 7500%Q)].

(** A processor that declines every card and refuses every customer;
    a runtime whose dates are valid for numbers only. *)
Module Declining.

Definition card_error : exn :=
  {| message := JStr "Your card was declined.";
     type := JStr "StripeCardError" |}.

Definition request_error : exn :=
  {| message := JStr "Invalid email address: nobody";
     type := JStr "StripeInvalidRequestError" |}.

Definition undated : object :=
  [("id", JStr "pi_777"); ("status", JStr "succeeded"); ("amount", JNum 5000);
   ("created", JStr "yesterday")].

Definition processor : Processor :=
  {| paymentIntents_create := fun _ => Throw card_error;
     paymentIntents_retrieve := fun _ => Ret undated;
     customers_create := fun params =>
       match field "email" params with
       | JStr "nobody" => Throw request_error
       | _ => Ret undated
       end;
     webhooks_constructEvent := fun _ _ _ => Throw card_error |}.

Definition details : ErrorDetails :=
  {| error_code := fun _ => JStr "card_declined";
     error_raw := fun _ => JObj [("decline_code", JStr "generic_decline")] |}.

Definition runtime : Runtime :=
  {| NumberToString := fun _ => "0";
     StringToNumber := fun _ => None;
     Date_now_toISOString := "2024-05-01T12:00:00.000Z";
     Date_of_seconds_toISOString := fun v =>
       match v with
       | JNum _ => Some "2024-05-01T11:59:00.000Z"
       | _ => None
       end |}.

End Declining.

(** * Properties *)

Arguments field : simpl never.

(** ** Conversions to primitives *)

Lemma lookup_toString_free (o : object) :
  forallb (fun kv => negb (String.eqb (fst kv) "toString")
                     && toString_free (snd kv)) o = true ->
  lookup "toString" o = None.
Proof.
  induction o as [| [k x] o IH]; [ reflexivity | ].
  cbn [forallb lookup fst snd].
  intros H; apply andb_true_iff in H; destruct H as [Hk Ho].
  apply andb_true_iff in Hk; destruct Hk as [Hk _].
  destruct (String.eqb "toString" k) eqn:Ek.
  - apply String.eqb_eq in Ek; subst k.
    rewrite String.eqb_refl in Hk; discriminate Hk.
  - exact (IH Ho).
Qed.

Fixpoint toString_free_printable (v : jsval) :
  toString_free v = true -> printable v = true.
Proof.
  destruct v as [ | | b | q | s | l | o ]; try reflexivity.
  - cbn [toString_free printable].
    induction l as [| x l IH]; [ reflexivity | ].
    cbn [forallb].
    intros H; apply andb_true_iff in H; destruct H as [Hx Hl].
    rewrite (toString_free_printable x Hx), orb_true_r.
    exact (IH Hl).
  - cbn [toString_free printable]. intros H.
    now rewrite (lookup_toString_free o H).
Qed.

Lemma toString_free_field k o :
  toString_free (JObj o) = true -> toString_free (field k o) = true.
Proof.
  unfold field; cbn [toString_free].
  induction o as [| [k' x] o IH]; [ reflexivity | ].
  cbn [forallb lookup fst snd].
  intros H; apply andb_true_iff in H; destruct H as [Hk Ho].
  apply andb_true_iff in Hk; destruct Hk as [_ Hx].
  destruct (String.eqb k k'); [ exact Hx | exact (IH Ho) ].
Qed.

Lemma toString_free_prop k v :
  toString_free v = true -> toString_free (prop k v) = true.
Proof.
  destruct v; simpl; try reflexivity. apply toString_free_field.
Qed.

Lemma printable_field k o :
  toString_free (JObj o) = true -> printable (field k o) = true.
Proof. intros H. apply toString_free_printable, toString_free_field, H. Qed.

Lemma bind_ret {A B} (a : A) (k : A -> M B) : bind (ret a) k = k a.
Proof. reflexivity. Qed.

Lemma get_non_nullish v k : is_nullish v = false -> get v k = ret (prop k v).
Proof. destruct v; simpl; try discriminate; reflexivity. Qed.

Lemma interp_printable v : printable v = true -> interp v = ret (Interp v).
Proof. intros H. unfold interp, to_primitive. rewrite H. reflexivity. Qed.

Lemma interp_div100_printable v :
  printable v = true -> interp_div100 v = ret (InterpDiv100 v).
Proof. intros H. unfold interp_div100, to_primitive. rewrite H. reflexivity. Qed.

Lemma interp_unprintable v :
  printable v = false ->
  interp v = throw (TypeError "Cannot convert object to primitive value").
Proof. intros H. unfold interp, to_primitive. rewrite H. reflexivity. Qed.

(** ** The monad and the console *)

Lemma extend_nil w : extend w [] [] = w.
Proof. destruct w; unfold extend; simpl; now rewrite !app_nil_r. Qed.

Lemma extend_extend w l1 b1 l2 b2 :
  extend (extend w l1 b1) l2 b2 = extend w (l1 ++ l2) (b1 ++ b2).
Proof. unfold extend; simpl; now rewrite !app_assoc. Qed.

Lemma traces_ret {A} (a : A) : traces [] (ret a).
Proof. exists (Ret a), []; intros w; unfold ret; now rewrite extend_nil. Qed.

Lemma traces_throw {A} e : traces [] (@throw A e).
Proof. exists (Throw e), []; intros w; unfold throw; now rewrite extend_nil. Qed.

Lemma traces_console_log text : traces [] (console_log text).
Proof.
  exists (Ret tt), [(stdout, text)]; intros w.
  unfold console_log, extend; now rewrite app_nil_r.
Qed.

Lemma traces_enter l : traces [l] (enter l).
Proof.
  exists (Ret tt), []; intros w.
  unfold enter, extend; now rewrite app_nil_r.
Qed.

Lemma traces_bind {A B} ls (m : M A) (k : A -> M B) :
  traces ls m -> (forall a, traces [] (k a)) -> traces ls (bind m k).
Proof.
  intros (r & lines & Hm) Hk. destruct r as [a | e].
  - destruct (Hk a) as (r' & lines' & Hka).
    exists r', (lines ++ lines'); intros w.
    unfold bind; now rewrite Hm, Hka, extend_extend, app_nil_r.
  - exists (Throw e), lines; intros w.
    unfold bind; now rewrite Hm.
Qed.

Lemma traces_get v k : traces [] (get v k).
Proof. destruct v; simpl; auto using @traces_ret, @traces_throw. Qed.

Lemma traces_get_opt v k : traces [] (get_opt v k).
Proof.
  unfold get_opt; destruct (is_nullish v); auto using @traces_ret, traces_get.
Qed.

Lemma traces_to_primitive v : traces [] (to_primitive v).
Proof.
  unfold to_primitive; destruct (printable v);
    auto using @traces_ret, @traces_throw.
Qed.

Lemma traces_interp v : traces [] (interp v).
Proof.
  apply traces_bind; [ apply traces_to_primitive | intros; apply traces_ret ].
Qed.

Lemma traces_interp_div100 v : traces [] (interp_div100 v).
Proof.
  apply traces_bind; [ apply traces_to_primitive | intros; apply traces_ret ].
Qed.

Ltac traces_body :=
  repeat first
    [ apply traces_console_log
    | apply traces_get
    | apply traces_get_opt
    | apply traces_interp
    | apply traces_interp_div100
    | apply @traces_ret
    | apply traces_bind; [ | intros ? ] ].

Lemma traces_clause_body c event :
  In c Webhook.clauses -> traces [] (Webhook.body c event).
Proof.
  unfold Webhook.clauses; simpl.
  intros [<- | [<- | [<- | [<- | [<- | [<- | []]]]]]]; simpl;
    [ unfold Webhook.payment_intent_succeeded
    | unfold Webhook.payment_intent_payment_failed
    | unfold Webhook.payment_intent_requires_action
    | unfold Webhook.customer_created
    | unfold Webhook.charge_dispute_created
    | unfold Webhook.unhandled ];
    traces_body.
Qed.

(** A clause that ends in [break], or is the last one, is the only one
    entered. *)
Lemma traces_run_from c rest event :
  traces [] (Webhook.body c event) ->
  Webhook.breaks c = true \/ rest = [] ->
  traces [Webhook.label c] (Webhook.run_from (c :: rest) event).
Proof.
  intros Hb Hlast; simpl.
  apply traces_bind; [ apply traces_enter | intros _ ].
  apply traces_bind; [ exact Hb | intros _ ].
  destruct Hlast as [-> | ->]; [ apply traces_ret | ].
  destruct (Webhook.breaks c); apply traces_ret.
Qed.

Lemma switch_default d :
  known_type d = false ->
  Webhook.from_first (Webhook.selects d) Webhook.clauses = None.
Proof.
  unfold known_type; simpl; intros H.
  repeat (apply orb_false_elim in H; destruct H as [-> H]); reflexivity.
Qed.

Lemma selects_label d c :
  Webhook.selects d c = true ->
  exists l, Webhook.label c = Some l /\ d = JStr l.
Proof.
  unfold Webhook.selects.
  destruct (Webhook.label c) as [l |]; [ | discriminate ].
  destruct d; try discriminate.
  intros H; apply String.eqb_eq in H; subst; eauto.
Qed.

(** The [switch] enters exactly one clause: the [case] whose label is
    strictly equal to the discriminant, or [default] when there is
    none. *)
Lemma switch_one_clause d event :
  exists c,
    In c Webhook.clauses /\
    (Webhook.selects d c = true \/
     (Webhook.label c = None /\ known_type d = false)) /\
    traces [Webhook.label c] (Webhook.switch d Webhook.clauses event).
Proof.
  pose proof switch_default as Hdefault.
  unfold Webhook.switch.
  destruct (known_type d) eqn:Hk.
  - unfold known_type in Hk; simpl in Hk.
    destruct d as [ | | b | q | s | l | o ]; try discriminate Hk.
    unfold Webhook.selects in *; simpl in *.
    repeat match goal with
    | |- context [ if String.eqb s ?l then _ else _ ] =>
        destruct (String.eqb s l) eqn:?
    end; try discriminate Hk;
    (eexists; split; [ | split ];
     [ | | apply traces_run_from;
           [ apply traces_clause_body | left; reflexivity ] ];
     [ simpl; tauto | left; simpl; assumption | simpl; tauto ]).
  - rewrite (Hdefault _ Hk).
    set (c := {| Webhook.label := None; Webhook.body := Webhook.unhandled;
                 Webhook.breaks := false |}).
    assert (Hin : In c Webhook.clauses) by (simpl; tauto).
    exists c; split; [ exact Hin | split ].
    + right; split; reflexivity.
    + exact (traces_run_from c [] event (traces_clause_body c event Hin)
               (or_intror eq_refl)).
Qed.

Lemma dispatch_one_clause event :
  is_nullish event = false ->
  exists c,
    In c Webhook.clauses /\
    (Webhook.selects (prop "type" event) c = true \/
     (Webhook.label c = None /\ known_type (prop "type" event) = false)) /\
    traces [Webhook.label c] (Webhook.dispatch event).
Proof.
  intros Hn. unfold Webhook.dispatch. rewrite (get_non_nullish _ _ Hn), bind_ret.
  exact (switch_one_clause (prop "type" event) event).
Qed.

(** An event of none of the handled types only gets the line of the
    [default] clause. *)
Lemma dispatch_unknown event w :
  is_nullish event = false ->
  known_type (prop "type" event) = false ->
  printable (prop "type" event) = true ->
  Webhook.dispatch event w =
  (Ret tt,
   extend w [(stdout, [Lit "ℹ️  Unhandled event type: "; Interp (prop "type" event)])]
     [None]).
Proof.
  intros Hn Hk Ht. unfold Webhook.dispatch.
  rewrite (get_non_nullish _ _ Hn), bind_ret.
  unfold Webhook.switch. rewrite (switch_default _ Hk).
  cbn [Webhook.from_first Webhook.is_default Webhook.label Webhook.clauses
       Webhook.run_from Webhook.body Webhook.breaks].
  unfold bind at 1. unfold enter at 1. unfold bind at 1.
  unfold Webhook.unhandled.
  rewrite (get_non_nullish _ _ Hn), bind_ret, (interp_printable _ Ht), bind_ret.
  reflexivity.
Qed.

(** ** The webhook handler *)

Section WebhookHandler.
Context {rt : Runtime} {sdk : Processor}.
Variable webhookSecret : jsval.

Lemma received_line_printable event :
  is_nullish event = false ->
  printable (prop "type" event) = true ->
  printable (prop "id" event) = true ->
  Webhook.received_line event =
  ret [Lit "📨 Webhook received: "; Interp (prop "type" event);
       Lit " | ID: "; Interp (prop "id" event)].
Proof.
  intros Hn Ht Hi. unfold Webhook.received_line.
  rewrite (get_non_nullish _ "type" Hn), bind_ret, (interp_printable _ Ht), bind_ret.
  rewrite (get_non_nullish _ "id" Hn), bind_ret, (interp_printable _ Hi), bind_ret.
  reflexivity.
Qed.

(** The first log line cannot be built: the exception leaves the
    handler before anything is logged, dispatched or sent. *)
Lemma handleWebhook_unprintable req event w :
  webhooks_constructEvent (Webhook.raw_body req) (Webhook.stripe_signature req)
    webhookSecret = Ret event ->
  is_nullish event
  || negb (printable (prop "type" event))
  || negb (printable (prop "id" event)) = true ->
  exists msg, Webhook.handleWebhook webhookSecret req w = (Throw (TypeError msg), w).
Proof.
  intros Hv H. unfold Webhook.handleWebhook; rewrite Hv.
  unfold Webhook.received_line.
  destruct (is_nullish event) eqn:Hn.
  - destruct event; try discriminate Hn; eexists; reflexivity.
  - rewrite (get_non_nullish _ "type" Hn), bind_ret.
    destruct (printable (prop "type" event)) eqn:Ht.
    + destruct (printable (prop "id" event)) eqn:Hi; [ discriminate H | ].
      rewrite (interp_printable _ Ht), bind_ret.
      rewrite (get_non_nullish _ "id" Hn), bind_ret, (interp_unprintable _ Hi).
      eexists; reflexivity.
    + rewrite (interp_unprintable _ Ht). eexists; reflexivity.
Qed.

(** What a call does once the event is verified and the first log line
    is written, in terms of the outcome [r] and the console lines of
    the dispatch. *)
Lemma handleWebhook_verified req event :
  webhooks_constructEvent (Webhook.raw_body req) (Webhook.stripe_signature req)
    webhookSecret = Ret event ->
  is_nullish event = false ->
  printable (prop "type" event) = true ->
  printable (prop "id" event) = true ->
  exists c r lines,
    In c Webhook.clauses /\
    (Webhook.selects (prop "type" event) c = true \/
     (Webhook.label c = None /\ known_type (prop "type" event) = false)) /\
    (forall w0, Webhook.dispatch event w0 = (r, extend w0 lines [Webhook.label c])) /\
    forall w,
      Webhook.handleWebhook webhookSecret req w =
      (Ret tt,
       {| log := log w ++
            (stdout, [Lit "📨 Webhook received: "; Interp (prop "type" event);
                      Lit " | ID: "; Interp (prop "id" event)]) :: lines ++
            match r with
            | Ret _ => []
            | Throw e => [(stderr, Webhook.dispatch_error_line e)]
            end;
          calls := calls w;
          responses := responses w ++
            [match r with
             | Ret _ =>
                 (200, JObj [("received", JBool true);
                             ("eventType", prop "type" event);
                             ("eventId", prop "id" event)])
             | Throw _ => (500, Webhook.internal_error)
             end];
          entered := entered w ++ [Webhook.label c] |}).
Proof.
  intros Hv Hn Ht Hi.
  destruct (dispatch_one_clause event Hn) as (c & Hin & Hsel & r & lines & Hd).
  exists c, r, lines; repeat split; try assumption.
  intros w. unfold Webhook.handleWebhook; rewrite Hv.
  rewrite (received_line_printable event Hn Ht Hi).
  unfold Webhook.acknowledgement. rewrite !(get_non_nullish _ _ Hn).
  unfold bind, try_catch, console_log, ret; rewrite Hd.
  destruct r as [[] | e]; unfold extend, res_json, res_status_json,
    console_error, Webhook.dispatch_error_line; simpl;
    rewrite <- ?app_assoc; simpl; try rewrite app_nil_r; reflexivity.
Qed.

(** C1. When signature verification fails, for whatever reason the
    verifier gives (bad signature, malformed header, expired timestamp,
    wrong secret), the handler answers 400 with the verifier's message,
    writes one line to the error console, enters no clause of the
    dispatch [switch] and makes no call to the processor. *)
Theorem verification_failure_rejected req err w :
  webhooks_constructEvent (Webhook.raw_body req) (Webhook.stripe_signature req)
    webhookSecret = Throw err ->
  Webhook.handleWebhook webhookSecret req w =
  (Ret tt,
   {| log := log w ++
        [(stderr, [Lit "❌ Webhook signature verification failed: ";
                   Interp (message err)])];
      calls := calls w;
      responses := responses w ++
        [(400, JObj [("error", JStr ("Webhook Error: " ++ ToString (message err)))])];
      entered := entered w |}).
Proof.
  intros Hv. unfold Webhook.handleWebhook; rewrite Hv. reflexivity.
Qed.

(** C3, as the code has it.  For a payload that verifies to an event
    that is not [null] and whose [type] and [id] can be printed (every
    event of the processor: both are strings), the call enters exactly
    one clause of the dispatch [switch]: the [case] whose label equals
    the event's type tag, or [default] when the tag equals none of the
    labels.  In the latter case the handler only writes the two
    informational console lines and answers 200 with the
    acknowledgement: no error, no call to the processor. *)
Theorem verified_event_dispatched_once req event w :
  webhooks_constructEvent (Webhook.raw_body req) (Webhook.stripe_signature req)
    webhookSecret = Ret event ->
  is_nullish event = false ->
  printable (prop "type" event) = true ->
  printable (prop "id" event) = true ->
  (exists c,
     In c Webhook.clauses /\
     entered (snd (Webhook.handleWebhook webhookSecret req w)) =
       entered w ++ [Webhook.label c] /\
     ((exists l, Webhook.label c = Some l /\ prop "type" event = JStr l) \/
      (Webhook.label c = None /\ known_type (prop "type" event) = false))) /\
  (known_type (prop "type" event) = false ->
   Webhook.handleWebhook webhookSecret req w =
   (Ret tt,
    {| log := log w ++
         [(stdout, [Lit "📨 Webhook received: "; Interp (prop "type" event);
                    Lit " | ID: "; Interp (prop "id" event)]);
          (stdout, [Lit "ℹ️  Unhandled event type: "; Interp (prop "type" event)])];
       calls := calls w;
       responses := responses w ++
         [(200, JObj [("received", JBool true);
                      ("eventType", prop "type" event);
                      ("eventId", prop "id" event)])];
       entered := entered w ++ [None] |})).
Proof.
  intros Hv Hn Ht Hi. split.
  - destruct (handleWebhook_verified req event Hv Hn Ht Hi)
      as (c & r & lines & Hin & Hsel & _ & Hrun).
    exists c; split; [ exact Hin | split ].
    + rewrite Hrun; reflexivity.
    + destruct Hsel as [Hsel | Hdef]; [ left | right; exact Hdef ].
      exact (selects_label _ _ Hsel).
  - intros Hk. unfold Webhook.handleWebhook; rewrite Hv.
    rewrite (received_line_printable event Hn Ht Hi).
    unfold Webhook.acknowledgement. rewrite !(get_non_nullish _ _ Hn).
    unfold bind, try_catch, ret, console_log.
    rewrite (dispatch_unknown event _ Hn Hk Ht).
    unfold extend, res_json, res_status_json; simpl.
    rewrite <- app_assoc. reflexivity.
Qed.

(** C4, as the code has it.  For a verified event that is not [null]
    and whose [type] and [id] can be printed, the handler answers 200
    with [{received: true, eventType, eventId}] whenever the dispatch
    returns, whatever the event reports (a failed payment is
    acknowledged like a successful one), and it answers 500 exactly
    when the dispatch throws.  The outcome of the dispatch is the same
    in every world [w0], in particular in the one the call runs it
    in. *)
Theorem acknowledged_unless_dispatch_throws req event w w0 :
  webhooks_constructEvent (Webhook.raw_body req) (Webhook.stripe_signature req)
    webhookSecret = Ret event ->
  is_nullish event = false ->
  printable (prop "type" event) = true ->
  printable (prop "id" event) = true ->
  (fst (Webhook.dispatch event w0) = Ret tt ->
   responses (snd (Webhook.handleWebhook webhookSecret req w)) =
     responses w ++
       [(200, JObj [("received", JBool true);
                    ("eventType", prop "type" event);
                    ("eventId", prop "id" event)])]) /\
  ((exists e, fst (Webhook.dispatch event w0) = Throw e) <->
   responses (snd (Webhook.handleWebhook webhookSecret req w)) =
     responses w ++
       [(500, JObj [("error", JStr "Internal error processing webhook")])]).
Proof.
  intros Hv Hn Ht Hi.
  destruct (handleWebhook_verified req event Hv Hn Ht Hi)
    as (c & r & lines & _ & _ & Hd & Hrun).
  rewrite Hrun, Hd; simpl. destruct r as [[] | e]; split.
  - reflexivity.
  - split; [ intros (e & He); discriminate He | ].
    intros H; apply app_inv_head in H; discriminate H.
  - intros H; discriminate H.
  - split; [ reflexivity | eauto ].
Qed.

End WebhookHandler.

(** A payload the verifier rejects is answered 400 without dispatch. *)
Lemma verification_failure_rejected_example :
  @Webhook.handleWebhook Demo.runtime Demo.processor (JStr "whsec_1")
    {| Webhook.stripe_signature := JStr "t=1,v1=00";
       Webhook.raw_body := "tampered" |} empty_world =
  (Ret tt,
   {| log :=
        [(stderr, [Lit "❌ Webhook signature verification failed: ";
                   Interp (JStr "No signatures found matching the expected signature for payload")])];
      calls := [];
      responses :=
        [(400, JObj [("error", JStr "Webhook Error: No signatures found matching the expected signature for payload")])];
      entered := [] |}).
Proof.
  exact (@verification_failure_rejected Demo.runtime Demo.processor
           (JStr "whsec_1")
           {| Webhook.stripe_signature := JStr "t=1,v1=00";
              Webhook.raw_body := "tampered" |}
           _ empty_world eq_refl).
Defined.

(** An event of an unknown type enters [default] only and is
    acknowledged. *)
Lemma verified_event_dispatched_once_example :
  entered (snd (@Webhook.handleWebhook Demo.runtime Demo.processor (JStr "whsec_1")
                  {| Webhook.stripe_signature := JStr "t=1,v1=00";
                     Webhook.raw_body := "unknown" |} empty_world)) = [None] /\
  responses (snd (@Webhook.handleWebhook Demo.runtime Demo.processor (JStr "whsec_1")
                    {| Webhook.stripe_signature := JStr "t=1,v1=00";
                       Webhook.raw_body := "unknown" |} empty_world)) =
    [(200, JObj [("received", JBool true); ("eventType", JStr "invoice.paid");
                 ("eventId", JStr "evt_3")])].
Proof.
  destruct (@verified_event_dispatched_once Demo.runtime Demo.processor
              (JStr "whsec_1")
              {| Webhook.stripe_signature := JStr "t=1,v1=00";
                 Webhook.raw_body := "unknown" |}
              (JObj Demo.unknown_event) empty_world
              eq_refl eq_refl eq_refl eq_refl) as [_ H].
  rewrite (H eq_refl). split; reflexivity.
Defined.

(** C3 as stated fails: a verified event whose [type] is an object with
    a [toString] property makes the first log line throw, outside both
    [try] blocks; no clause is entered and nothing is sent. *)
Lemma unprintable_type_not_dispatched :
  @webhooks_constructEvent Demo.processor "odd" (JStr "t=1,v1=00") (JStr "whsec_1")
    = Ret (JObj Demo.odd_event) /\
  @Webhook.handleWebhook Demo.runtime Demo.processor (JStr "whsec_1")
    {| Webhook.stripe_signature := JStr "t=1,v1=00";
       Webhook.raw_body := "odd" |} empty_world
    = (Throw (TypeError "Cannot convert object to primitive value"), empty_world).
Proof. split; reflexivity. Qed.

(** A failed payment is acknowledged with 200. *)
Lemma acknowledged_unless_dispatch_throws_example :
  responses (snd (@Webhook.handleWebhook Demo.runtime Demo.processor (JStr "whsec_1")
                    {| Webhook.stripe_signature := JStr "t=1,v1=00";
                       Webhook.raw_body := "failed" |} empty_world)) =
    [(200, JObj [("received", JBool true);
                 ("eventType", JStr "payment_intent.payment_failed");
                 ("eventId", JStr "evt_2")])].
Proof.
  exact (proj1 (@acknowledged_unless_dispatch_throws Demo.runtime Demo.processor
                  (JStr "whsec_1")
                  {| Webhook.stripe_signature := JStr "t=1,v1=00";
                     Webhook.raw_body := "failed" |}
                  (JObj Demo.failed_event) empty_world empty_world
                  eq_refl eq_refl eq_refl eq_refl) eq_refl).
Defined.

(** C4 as stated fails: a verified [customer.created] event whose [id]
    is an object with a [toString] property gets neither a 200 nor a
    500; the handler throws before the dispatch and sends nothing. *)
Lemma unprintable_id_not_answered :
  @webhooks_constructEvent Demo.processor "odd id" (JStr "t=1,v1=00") (JStr "whsec_1")
    = Ret (JObj Demo.odd_id_event) /\
  @Webhook.handleWebhook Demo.runtime Demo.processor (JStr "whsec_1")
    {| Webhook.stripe_signature := JStr "t=1,v1=00";
       Webhook.raw_body := "odd id" |} empty_world
    = (Throw (TypeError "Cannot convert object to primitive value"), empty_world).
Proof. split; reflexivity. Qed.

(** ** Dispatch: when it throws, and what it leaves behind *)

Ltac use_free :=
  match goal with
  | H : toString_free (JObj ?o) = true |- context [ printable (field ?k ?o) ] =>
      rewrite (printable_field k o H)
  end.

Ltac split_child :=
  match goal with
  | H : toString_free (JObj ?o) = true |- context [ is_nullish (field ?k ?o) ] =>
      let Hc := fresh "Hc" in
      pose proof (toString_free_field k o H) as Hc;
      revert Hc; destruct (field k o); intros Hc
  | |- context [ truthy (field ?k ?o) ] => destruct (truthy (field k o))
  end.

(** For one of the five handled types and a payload without [toString]
    properties, the dispatch throws exactly when [event.data.object] is
    [null], [undefined] or cannot be reached: each [case] reads a
    property of it unconditionally. *)
Lemma dispatch_known event w :
  is_nullish event = false ->
  known_type (prop "type" event) = true ->
  toString_free (payload event) = true ->
  throws (Webhook.dispatch event) w = is_nullish (payload event).
Proof.
  intros Hn Hk Hf. unfold throws, Webhook.dispatch.
  rewrite (get_non_nullish _ _ Hn), bind_ret.
  destruct event as [ | | b | q | s0 | l | ev ];
    try discriminate Hn; try discriminate Hk.
  unfold payload in *; cbn [prop] in *.
  unfold known_type in Hk.
  destruct (field "type" ev) as [ | | ? | ? | s | ? | ? ]; try discriminate Hk.
  unfold Webhook.switch, Webhook.selects in *; simpl in Hk |- *.
  repeat match goal with
  | |- context [ if String.eqb s ?l then _ else _ ] =>
      destruct (String.eqb s l) eqn:?
  end; try discriminate Hk; clear Hk;
  unfold Webhook.payment_intent_succeeded,
    Webhook.payment_intent_payment_failed,
    Webhook.payment_intent_requires_action,
    Webhook.customer_created, Webhook.charge_dispute_created;
  unfold bind, enter, get_opt, interp, interp_div100, to_primitive, or_else;
  simpl;
  (destruct (field "data" ev) as [ | | ? | ? | ? | ? | data ]; simpl;
   try reflexivity);
  cbn [prop] in Hf;
  (revert Hf;
   destruct (field "object" data) as [ | | ? | ? | ? | ? | obj ]; intros Hf; simpl;
   try reflexivity);
  repeat first [ use_free; simpl | split_child; simpl ];
  reflexivity.
Qed.

(** For any other type the dispatch throws exactly when the type
    cannot be printed by the [default] clause. *)
Lemma dispatch_default event w :
  is_nullish event = false ->
  known_type (prop "type" event) = false ->
  throws (Webhook.dispatch event) w = negb (printable (prop "type" event)).
Proof.
  intros Hn Hk. destruct (printable (prop "type" event)) eqn:Ht.
  - unfold throws. now rewrite (dispatch_unknown event w Hn Hk Ht).
  - unfold throws, Webhook.dispatch.
    rewrite (get_non_nullish _ _ Hn), bind_ret.
    unfold Webhook.switch. rewrite (switch_default _ Hk).
    cbn [Webhook.from_first Webhook.is_default Webhook.label Webhook.clauses
         Webhook.run_from Webhook.body Webhook.breaks].
    unfold bind at 1. unfold enter at 1. unfold bind at 1.
    unfold Webhook.unhandled.
    rewrite (get_non_nullish _ _ Hn), bind_ret, (interp_unprintable _ Ht).
    reflexivity.
Qed.




(** ** The freshness check *)

(** C2.  With the verification routine of section 4.1, a payload whose
    signature header carries a timestamp more than the tolerance (300
    seconds) before the time of receipt fails verification, whatever
    digests the header carries (in particular the correct one) and
    whatever the secret; the handler answers 400 and enters no clause
    of the dispatch. *)
Theorem stale_timestamp_rejected {rt : Runtime} (sdk : Processor)
  hmac parse_header parse_event (received_at : Z)
  secret req header (timestamp : Z) digests w :
  Webhook.stripe_signature req = JStr header ->
  parse_header header = Some (timestamp, digests) ->
  (received_at - timestamp > Verifier.DEFAULT_TOLERANCE)%Z ->
  exists err,
    Verifier.constructEvent hmac parse_header parse_event received_at
      (Webhook.raw_body req) (JStr header) secret = Throw err /\
    @Webhook.handleWebhook rt
      (Verifier.with_verifier hmac parse_header parse_event received_at sdk)
      secret req w =
    (Ret tt,
     {| log := log w ++
          [(stderr, [Lit "❌ Webhook signature verification failed: ";
                     Interp (message err)])];
        calls := calls w;
        responses := responses w ++
          [(400, JObj [("error", JStr ("Webhook Error: " ++ ToString (message err)))])];
        entered := entered w |}).
Proof.
  intros Hsig Hparse Hold.
  assert (Hgt : (received_at - timestamp >? Verifier.DEFAULT_TOLERANCE)%Z = true)
    by (apply Z.gtb_lt; lia).
  unfold Webhook.handleWebhook; simpl; rewrite Hsig.
  unfold Verifier.constructEvent.
  destruct secret; try (eexists; split; reflexivity).
  rewrite Hparse.
  destruct (negb (existsb _ digests)); [ eexists; split; reflexivity | ].
  rewrite Hgt. eexists; split; reflexivity.
Qed.

(** A correctly signed payload received 301 seconds after its
    timestamp is rejected. *)
Lemma stale_timestamp_rejected_example :
  exists err,
    Verifier.constructEvent Demo.hmac Demo.parse_header Demo.parse_event 1301
      "unknown" (JStr "t=whsec_1/1000.unknown") (JStr "whsec_1") = Throw err /\
    @Webhook.handleWebhook Demo.runtime
      (Verifier.with_verifier Demo.hmac Demo.parse_header Demo.parse_event 1301
         Demo.processor)
      (JStr "whsec_1")
      {| Webhook.stripe_signature := JStr "t=whsec_1/1000.unknown";
         Webhook.raw_body := "unknown" |} empty_world =
    (Ret tt,
     {| log := [] ++
          [(stderr, [Lit "❌ Webhook signature verification failed: ";
                     Interp (message err)])];
        calls := [];
        responses := [] ++
          [(400, JObj [("error", JStr ("Webhook Error: " ++ @ToString Demo.runtime (message err)))])];
        entered := [] |}).
Proof.
  apply (@stale_timestamp_rejected Demo.runtime Demo.processor
           Demo.hmac Demo.parse_header Demo.parse_event 1301 (JStr "whsec_1")
           {| Webhook.stripe_signature := JStr "t=whsec_1/1000.unknown";
              Webhook.raw_body := "unknown" |}
           "t=whsec_1/1000.unknown" 1000 ["whsec_1/1000.unknown"] empty_world).
  - reflexivity.
  - reflexivity.
  - vm_compute; reflexivity.
Defined.

(** The same payload received within the window verifies. *)
Lemma fresh_timestamp_accepted_example :
  Verifier.constructEvent Demo.hmac Demo.parse_header Demo.parse_event 1300
    "unknown" (JStr "t=whsec_1/1000.unknown") (JStr "whsec_1")
  = Ret (JObj Demo.unknown_event).
Proof. reflexivity. Qed.

(** ** Objects *)

Lemma lookup_set_prop_eq k v o : lookup k (set_prop k v o) = Some v.
Proof.
  induction o as [| [k' v'] rest IH]; simpl.
  - now rewrite String.eqb_refl.
  - destruct (String.eqb k k') eqn:E; simpl; rewrite ?String.eqb_refl, ?E; auto.
Qed.

Lemma lookup_set_prop_ne k k' v o :
  k <> k' -> lookup k (set_prop k' v o) = lookup k o.
Proof.
  intros Hne. apply String.eqb_neq in Hne.
  induction o as [| [k0 v0] rest IH]; simpl.
  - now rewrite Hne.
  - destruct (String.eqb k' k0) eqn:E; simpl.
    + apply String.eqb_eq in E; subst k0. now rewrite Hne.
    + destruct (String.eqb k k0); auto.
Qed.

Lemma field_set_prop_ne k k' v o :
  k <> k' -> field k (set_prop k' v o) = field k o.
Proof. intros H; unfold field; now rewrite lookup_set_prop_ne. Qed.

Lemma lookup_not_in k (o : object) :
  ~ In k (map fst o) -> lookup k o = None.
Proof.
  induction o as [| [k' v'] rest IH]; simpl; [ reflexivity | ].
  intros H. destruct (String.eqb k k') eqn:E.
  - apply String.eqb_eq in E; subst; tauto.
  - apply IH; tauto.
Qed.

(** Copying properties with distinct names onto [acc] makes each of
    them readable, and leaves the other names of [acc] alone. *)
Lemma lookup_fold_set_prop k (o acc : object) :
  NoDup (map fst o) ->
  lookup k (fold_left (fun a kv => set_prop (fst kv) (snd kv) a) o acc) =
  match lookup k o with
  | Some v => Some v
  | None => lookup k acc
  end.
Proof.
  revert acc; induction o as [| [k' v'] rest IH]; simpl; intros acc Hnd;
    [ reflexivity | ].
  inversion Hnd as [| ? ? Hnotin Hnd']; subst.
  rewrite (IH _ Hnd').
  destruct (String.eqb k k') eqn:E.
  - apply String.eqb_eq in E; subst k'.
    now rewrite (lookup_not_in _ _ Hnotin), lookup_set_prop_eq.
  - apply String.eqb_neq in E.
    now rewrite (lookup_set_prop_ne _ _ _ _ E).
Qed.

(** Spreading an object whose property names are distinct copies it. *)
Lemma lookup_spread k o :
  NoDup (map fst o) -> lookup k (spread (JObj o)) = lookup k o.
Proof.
  intros Hnd; unfold spread; simpl.
  rewrite (lookup_fold_set_prop k o [] Hnd).
  now destruct (lookup k o).
Qed.

Lemma spread_default v : spread (default_to (JObj []) v) = spread v.
Proof. destruct v; reflexivity. Qed.

(** ** The payment handlers *)

Section PaymentHandlers.
Context {rt : Runtime} {sdk : Processor}.

(** The processor is called at most once, after the amount check, and
    with the parameters built from the request. *)
Lemma createPaymentIntent_calls req w :
  let amount := field "amount" (Payments.body req) in
  calls (snd (Payments.createPaymentIntent req w)) =
  calls w ++
    if negb (truthy amount) || le_zero amount then []
    else [PaymentIntentsCreate
            (Payments.paymentIntentParams amount
               (default_to (JStr "gbp") (field "currency" (Payments.body req)))
               (field "customerId" (Payments.body req))
               (default_to (JObj []) (field "metadata" (Payments.body req))))].
Proof.
  unfold Payments.createPaymentIntent; simpl.
  destruct (negb (truthy (field "amount" (Payments.body req)))
            || le_zero (field "amount" (Payments.body req))); simpl.
  - now rewrite app_nil_r.
  - unfold try_catch, bind, sdk_call, lift; simpl.
    destruct (paymentIntents_create _); [ | reflexivity ].
    destruct (default_to (JStr "gbp") (field "currency" (Payments.body req)));
      reflexivity.
Qed.

(** The part of C6 the guard does enforce: a missing, zero or negative
    amount is answered 400 and the processor is not called. *)
Lemma nonpositive_amount_rejected req w :
  field "amount" (Payments.body req) = JUndefined \/
  (exists q, field "amount" (Payments.body req) = JNum q /\ (q <= 0)%Q) ->
  Payments.createPaymentIntent req w =
  (Ret tt,
   {| log := log w; calls := calls w;
      responses := responses w ++
        [(400, JObj [("error",
                      JStr "Amount must be a positive integer (in pence/cents)")])];
      entered := entered w |}).
Proof.
  unfold Payments.createPaymentIntent.
  intros [-> | (q & -> & Hq)]; [ reflexivity | ].
  unfold le_zero; simpl.
  apply Qle_bool_iff in Hq; rewrite Hq, orb_true_r. reflexivity.
Qed.

(** C6 at the amount 10.5.  The guard [!amount || amount <= 0] lets it
    through although it is not a positive integer, and the processor's
    create call is made with it. *)
Theorem fractional_amount_reaches_processor w :
  positive_integer (JNum (21 # 2)) = false /\
  calls (snd (Payments.createPaymentIntent
                {| Payments.body := [("amount", JNum (21 # 2))] |} w)) =
  calls w ++
    [PaymentIntentsCreate
       [("amount", JNum (21 # 2));
        ("currency", JStr "gbp");
        ("automatic_payment_methods", JObj [("enabled", JBool true)]);
        ("metadata", JObj [("timestamp", JStr Date_now_toISOString)])]].
Proof.
  split; [ reflexivity | ].
  rewrite createPaymentIntent_calls. reflexivity.
Qed.

(** C7.  An id that does not start with [pi_] is answered 400 with the
    "Invalid PaymentIntent ID" error; nothing is logged and the
    processor is not called. *)
Theorem invalid_id_rejected id w :
  String.prefix "pi_" id = false ->
  Payments.getPaymentStatus id w =
  (Ret tt,
   {| log := log w; calls := calls w;
      responses := responses w ++
        [(400, JObj [("error",
                      JStr "Invalid PaymentIntent ID. Should start with pi_")])];
      entered := entered w |}).
Proof.
  intros H. unfold Payments.getPaymentStatus.
  rewrite H, orb_true_r. reflexivity.
Qed.

(** C10.  For an id that passes the prefix check, any exception of the
    processor's retrieve call is answered 404 with the exception's
    message, after one line on the error console. *)
Theorem retrieve_failure_is_404 id err w :
  String.prefix "pi_" id = true ->
  paymentIntents_retrieve id = Throw err ->
  Payments.getPaymentStatus id w =
  (Ret tt,
   {| log := log w ++
        [(stderr, [Lit "❌ Retrieve PaymentIntent failed:"; Interp (message err)])];
      calls := calls w ++ [PaymentIntentsRetrieve id];
      responses := responses w ++ [(404, JObj [("error", message err)])];
      entered := entered w |}).
Proof.
  intros Hp Hr. unfold Payments.getPaymentStatus.
  assert (Hid : truthy (JStr id) = true)
    by (destruct id; [ discriminate Hp | reflexivity ]).
  rewrite Hp, Hid; simpl.
  unfold try_catch, bind, sdk_call, lift; simpl. rewrite Hr. reflexivity.
Qed.

End PaymentHandlers.

Lemma invalid_id_rejected_example :
  @Payments.getPaymentStatus Demo.runtime Demo.processor "cus_123" empty_world =
  (Ret tt,
   {| log := []; calls := [];
      responses :=
        [(400, JObj [("error",
                      JStr "Invalid PaymentIntent ID. Should start with pi_")])];
      entered := [] |}).
Proof.
  exact (@invalid_id_rejected Demo.runtime Demo.processor "cus_123" empty_world
           eq_refl).
Defined.

Lemma retrieve_failure_is_404_example :
  @Payments.getPaymentStatus Demo.runtime Demo.processor "pi_404" empty_world =
  (Ret tt,
   {| log :=
        [(stderr, [Lit "❌ Retrieve PaymentIntent failed:";
                   Interp (JStr "No such payment_intent: 'pi_404'")])];
      calls := [PaymentIntentsRetrieve "pi_404"];
      responses :=
        [(404, JObj [("error", JStr "No such payment_intent: 'pi_404'")])];
      entered := [] |}).
Proof.
  exact (@retrieve_failure_is_404 Demo.runtime Demo.processor "pi_404" _
           empty_world eq_refl eq_refl).
Defined.

(** ** The confirmation token *)

(** C8.  When a creation succeeds (the amount passes the check, the
    currency is a string and the processor returns a payment intent),
    the handler answers 200 with the processor's confirmation token in
    the [clientSecret] field of the body.  For every request, the
    console output and the processor calls are the same whatever token
    the processor returns, so neither contains or depends on it.  The
    world has no other component a token could be kept in. *)
Theorem client_secret_only_in_response {rt : Runtime} (sdk : Processor)
  req tok1 tok2 w :
  let run tok :=
    snd (@Payments.createPaymentIntent rt (with_client_secret tok sdk) req w) in
  (log (run tok1) = log (run tok2) /\
   calls (run tok1) = calls (run tok2) /\
   entered (run tok1) = entered (run tok2)) /\
  (forall code paymentIntent,
     let amount := field "amount" (Payments.body req) in
     negb (truthy amount) || le_zero amount = false ->
     printable amount = true ->
     default_to (JStr "gbp") (field "currency" (Payments.body req)) = JStr code ->
     @paymentIntents_create sdk
       (Payments.paymentIntentParams amount (JStr code)
          (field "customerId" (Payments.body req))
          (default_to (JObj []) (field "metadata" (Payments.body req))))
       = Ret paymentIntent ->
     responses (run tok1) =
       responses w ++
         [(200, JObj [("paymentIntentId", field "id" paymentIntent);
                      ("clientSecret", tok1);
                      ("amount", field "amount" paymentIntent);
                      ("currency", field "currency" paymentIntent);
                      ("status", field "status" paymentIntent)])]).
Proof.
  assert (Hne : forall k, k <> "client_secret" ->
            forall tok o, field k (set_prop "client_secret" tok o) = field k o)
    by (intros; now apply field_set_prop_ne).
  assert (Heq : forall tok o, field "client_secret" (set_prop "client_secret" tok o) = tok)
    by (intros; unfold field; now rewrite lookup_set_prop_eq).
  unfold Payments.createPaymentIntent; simpl.
  destruct (negb (truthy (field "amount" (Payments.body req)))
            || le_zero (field "amount" (Payments.body req))); simpl.
  - split; [ repeat split | ]. intros code paymentIntent H; discriminate H.
  - unfold try_catch, bind, sdk_call, lift; simpl.
    destruct (@paymentIntents_create sdk _) as [paymentIntent | e] eqn:Hc; simpl.
    + destruct (default_to (JStr "gbp") (field "currency" (Payments.body req)))
        eqn:Hcur; simpl;
        try (split; [ repeat split | ];
             intros code paymentIntent' _ _ H; discriminate H).
      rewrite !(Hne "id"), !(Hne "status"), !(Hne "amount"), !(Hne "currency"),
        !Heq by discriminate.
      split; [ repeat split | ].
      intros code paymentIntent' _ _ H Hc'. injection H as <-.
      rewrite Hc in Hc'. injection Hc' as <-. reflexivity.
    + split; [ repeat split | ].
      intros code paymentIntent _ _ Hcur Hc'.
      rewrite Hcur in Hc. rewrite Hc in Hc'. discriminate Hc'.
Qed.

(** With the demonstration processor: the token reaches the caller in
    the 200 response, and the console line is the one printed for any
    other token. *)
Lemma client_secret_only_in_response_example :
  let run tok :=
    snd (@Payments.createPaymentIntent Demo.runtime
           (with_client_secret tok Demo.processor)
           {| Payments.body := [("amount", JNum 5000)] |} empty_world) in
  log (run (JStr "pi_123_secret_abc")) = log (run (JStr "pi_123_secret_xyz")) /\
  responses (run (JStr "pi_123_secret_xyz")) =
    [(200, JObj [("paymentIntentId", JStr "pi_123");
                 ("clientSecret", JStr "pi_123_secret_xyz");
                 ("amount", JNum 5000); ("currency", JStr "gbp");
                 ("status", JStr "requires_payment_method")])].
Proof.
  split.
  - exact (proj1 (proj1 (@client_secret_only_in_response Demo.runtime Demo.processor
                           {| Payments.body := [("amount", JNum 5000)] |}
                           (JStr "pi_123_secret_abc") (JStr "pi_123_secret_xyz")
                           empty_world))).
  - exact (proj2 (@client_secret_only_in_response Demo.runtime Demo.processor
                    {| Payments.body := [("amount", JNum 5000)] |}
                    (JStr "pi_123_secret_xyz") (JStr "pi_123_secret_xyz")
                    empty_world)
             "gbp" Demo.paymentIntent eq_refl eq_refl eq_refl eq_refl).
Defined.

(** ** Metadata sent to the processor *)

(** create-customer calls the processor once whenever the email is
    truthy, before anything that can fail. *)
Lemma createCustomer_calls {rt : Runtime} {sdk : Processor} req w :
  truthy (field "email" (Customers.body req)) = true ->
  calls (snd (Customers.createCustomer req w)) =
  calls w ++
    [CustomersCreate
       (Customers.customerParams (field "email" (Customers.body req))
          (field "name" (Customers.body req))
          (field "phone" (Customers.body req))
          (default_to (JObj []) (field "metadata" (Customers.body req))))].
Proof.
  intros He. unfold Customers.createCustomer; rewrite He; simpl.
  unfold try_catch, bind, sdk_call, lift, Payments.date_toISOString,
    interp, to_primitive; simpl.
  destruct (customers_create _); [ | reflexivity ].
  destruct (printable (field "email" (Customers.body req))); [ | reflexivity ].
  simpl. destruct (Date_of_seconds_toISOString _); reflexivity.
Qed.

(** C9.  Every create-payment-intent request whose amount passes the
    check makes one processor call, and the metadata of that call has
    the server's clock reading under ["timestamp"], whatever the caller
    put there; every other name reads as in the caller's metadata
    object, and nothing else is there when the caller sent no metadata.
    Every create-customer request with an email does the same under
    ["created_at"]. *)
Theorem metadata_stamped {rt : Runtime} {sdk : Processor} :
  (forall (req : Payments.request) w,
     let amount := field "amount" (Payments.body req) in
     let metadata := field "metadata" (Payments.body req) in
     negb (truthy amount) || le_zero amount = false ->
     printable amount = true ->
     exists params md,
       calls (snd (Payments.createPaymentIntent req w)) =
         calls w ++ [PaymentIntentsCreate params] /\
       lookup "metadata" params = Some (JObj md) /\
       lookup "timestamp" md = Some (JStr Date_now_toISOString) /\
       (forall o, metadata = JObj o -> NoDup (map fst o) ->
          forall k, k <> "timestamp" -> lookup k md = lookup k o) /\
       (metadata = JUndefined ->
          forall k, k <> "timestamp" -> lookup k md = None)) /\
  (forall (req : Customers.request) w,
     let email := field "email" (Customers.body req) in
     let metadata := field "metadata" (Customers.body req) in
     truthy email = true ->
     exists params md,
       calls (snd (Customers.createCustomer req w)) =
         calls w ++ [CustomersCreate params] /\
       lookup "metadata" params = Some (JObj md) /\
       lookup "created_at" md = Some (JStr Date_now_toISOString) /\
       (forall o, metadata = JObj o -> NoDup (map fst o) ->
          forall k, k <> "created_at" -> lookup k md = lookup k o) /\
       (metadata = JUndefined ->
          forall k, k <> "created_at" -> lookup k md = None)).
Proof.
  split; simpl.
  - intros req w Hg _.
    do 2 eexists; split; [ | split; [ | split; [ | split ] ] ].
    + rewrite createPaymentIntent_calls; simpl. rewrite Hg. reflexivity.
    + unfold Payments.paymentIntentParams.
      destruct (truthy (field "customerId" (Payments.body req))); reflexivity.
    + apply lookup_set_prop_eq.
    + intros o Ho Hnd k Hk.
      now rewrite lookup_set_prop_ne, spread_default, Ho, lookup_spread.
    + intros Ho k Hk. rewrite lookup_set_prop_ne, Ho by exact Hk. reflexivity.
  - intros req w He.
    do 2 eexists; split; [ | split; [ | split; [ | split ] ] ].
    + exact (createCustomer_calls req w He).
    + reflexivity.
    + apply lookup_set_prop_eq.
    + intros o Ho Hnd k Hk.
      now rewrite lookup_set_prop_ne, spread_default, Ho, lookup_spread.
    + intros Ho k Hk. rewrite lookup_set_prop_ne, Ho by exact Hk. reflexivity.
Qed.

(** A caller's ["timestamp"] is replaced and the caller's ["order_id"]
    is kept by create-payment-intent; create-customer adds
    ["created_at"] to the caller's ["internal_user_id"]. *)
Lemma metadata_stamped_example :
  (exists params md,
     calls (snd (@Payments.createPaymentIntent Demo.runtime Demo.processor
                   {| Payments.body :=
                        [("amount", JNum 5000);
                         ("metadata", JObj [("timestamp", JStr "yesterday");
                                            ("order_id", JStr "ORD-001")])] |}
                   empty_world)) = [PaymentIntentsCreate params] /\
     lookup "metadata" params = Some (JObj md) /\
     lookup "timestamp" md = Some (JStr "2024-05-01T12:00:00.000Z") /\
     lookup "order_id" md = Some (JStr "ORD-001")) /\
  (exists params md,
     calls (snd (@Customers.createCustomer Demo.runtime Demo.processor
                   {| Customers.body :=
                        [("email", JStr "user@example.com");
                         ("metadata", JObj [("internal_user_id", JStr "USR-123")])] |}
                   empty_world)) = [CustomersCreate params] /\
     lookup "metadata" params = Some (JObj md) /\
     lookup "created_at" md = Some (JStr "2024-05-01T12:00:00.000Z") /\
     lookup "internal_user_id" md = Some (JStr "USR-123")).
Proof.
  split.
  - destruct (proj1 (@metadata_stamped Demo.runtime Demo.processor)
                {| Payments.body :=
                     [("amount", JNum 5000);
                      ("metadata", JObj [("timestamp", JStr "yesterday");
                                         ("order_id", JStr "ORD-001")])] |}
                empty_world eq_refl eq_refl)
      as (params & md & Hcalls & Hmd & Hts & Hrest & _).
    exists params, md. repeat split; try assumption.
    rewrite (Hrest _ eq_refl) by
      (repeat constructor; simpl; intuition discriminate).
    reflexivity.
  - destruct (proj2 (@metadata_stamped Demo.runtime Demo.processor)
                {| Customers.body :=
                     [("email", JStr "user@example.com");
                      ("metadata", JObj [("internal_user_id", JStr "USR-123")])] |}
                empty_world eq_refl)
      as (params & md & Hcalls & Hmd & Hts & Hrest & _).
    exists params, md. repeat split; try assumption.
    rewrite (Hrest _ eq_refl) by
      (repeat constructor; simpl; intuition discriminate).
    reflexivity.
Defined.

(** * Further properties of the handlers *)

(** ** webhook.js *)

Section WebhookMore.
Context {rt : Runtime} {sdk : Processor}.
Variable webhookSecret : jsval.

(** X1.  Whatever the request and the verifier's answer, the webhook
    handler sends at most one response, enters at most one clause and
    makes no API call.  When it returns it has sent exactly one
    response, with status 200, 400 or 500; when it throws, which
    happens only while the first log line is built, it has logged,
    entered and sent nothing. *)
Theorem handleWebhook_answers_at_most_once req w :
  exists lines ls rs,
    snd (Webhook.handleWebhook webhookSecret req w) =
      {| log := log w ++ lines; calls := calls w;
         responses := responses w ++ rs;
         entered := entered w ++ ls |} /\
    (length ls <= 1)%nat /\
    match fst (Webhook.handleWebhook webhookSecret req w) with
    | Ret _ =>
        exists code body,
          rs = [(code, body)] /\ (code = 200 \/ code = 400 \/ code = 500)
    | Throw _ => lines = [] /\ ls = [] /\ rs = []
    end.
Proof.
  destruct (webhooks_constructEvent (Webhook.raw_body req)
              (Webhook.stripe_signature req) webhookSecret) as [event | err] eqn:Hv.
  - destruct (is_nullish event
              || negb (printable (prop "type" event))
              || negb (printable (prop "id" event))) eqn:Hbad.
    + destruct (handleWebhook_unprintable webhookSecret req event w Hv Hbad)
        as (msg & Hrun).
      rewrite Hrun; simpl. exists [], [], [].
      destruct w; simpl; rewrite !app_nil_r. repeat split. simpl; lia.
    + apply orb_false_elim in Hbad; destruct Hbad as [Hbad Hi].
      apply orb_false_elim in Hbad; destruct Hbad as [Hn Ht].
      apply negb_false_iff in Ht, Hi.
      destruct (handleWebhook_verified webhookSecret req event Hv Hn Ht Hi)
        as (c & r & lines & _ & _ & _ & Hrun).
      rewrite Hrun.
      destruct r as [[] | e]; do 3 eexists;
        (split; [ reflexivity | split; [ simpl; lia | ] ]);
        simpl; do 2 eexists; (split; [ reflexivity | tauto ]).
  - unfold Webhook.handleWebhook; rewrite Hv.
    exists [(stderr, [Lit "❌ Webhook signature verification failed: ";
                      Interp (message err)])], [],
      [(400, JObj [("error", JStr ("Webhook Error: " ++ ToString (message err)))])].
    unfold bind, console_error, res_status_json; simpl.
    rewrite app_nil_r.
    split; [ reflexivity | split; [ simpl; lia | ] ].
    do 2 eexists; split; [ reflexivity | tauto ].
Qed.

(** X2.  For a verified event that is not [null] and has no [toString]
    property at any depth, the status is decided by the event alone:
    500 when its type is one of the five handled ones and
    [event.data.object] is [null], [undefined] or cannot be reached,
    200 with the acknowledgement in every other case. *)
Theorem webhook_status_of_event req event w :
  webhooks_constructEvent (Webhook.raw_body req) (Webhook.stripe_signature req)
    webhookSecret = Ret event ->
  is_nullish event = false ->
  toString_free event = true ->
  responses (snd (Webhook.handleWebhook webhookSecret req w)) =
  responses w ++
    [if known_type (prop "type" event) && is_nullish (payload event)
     then (500, JObj [("error", JStr "Internal error processing webhook")])
     else (200, JObj [("received", JBool true);
                      ("eventType", prop "type" event);
                      ("eventId", prop "id" event)])].
Proof.
  intros Hv Hn Hf.
  assert (Ht : printable (prop "type" event) = true)
    by (apply toString_free_printable, toString_free_prop, Hf).
  assert (Hi : printable (prop "id" event) = true)
    by (apply toString_free_printable, toString_free_prop, Hf).
  assert (Hp : toString_free (payload event) = true)
    by (unfold payload; apply toString_free_prop, toString_free_prop, Hf).
  destruct (handleWebhook_verified webhookSecret req event Hv Hn Ht Hi)
    as (c & r & lines & _ & _ & Hd & Hrun).
  rewrite Hrun; simpl.
  assert (Hthrows : throws (Webhook.dispatch event) w =
                    known_type (prop "type" event) && is_nullish (payload event)).
  { destruct (known_type (prop "type" event)) eqn:Hk.
    - exact (dispatch_known event w Hn Hk Hp).
    - rewrite (dispatch_default event w Hn Hk), Ht. reflexivity. }
  rewrite <- Hthrows; unfold throws; rewrite Hd; simpl.
  destruct r; reflexivity.
Qed.

End WebhookMore.

Lemma webhook_status_of_event_example :
  responses (snd (@Webhook.handleWebhook Demo.runtime Demo.processor (JStr "whsec_1")
                    {| Webhook.stripe_signature := JStr "t=1,v1=00";
                       Webhook.raw_body := "bare" |} empty_world)) =
  [] ++ [(500, JObj [("error", JStr "Internal error processing webhook")])].
Proof.
  exact (@webhook_status_of_event Demo.runtime Demo.processor (JStr "whsec_1")
           {| Webhook.stripe_signature := JStr "t=1,v1=00";
              Webhook.raw_body := "bare" |}
           (JObj Demo.bare_event) empty_world eq_refl eq_refl eq_refl).
Defined.

(** ** payments.js *)

Lemma get_truthy v k w : truthy v = true -> get v k w = (Ret (prop k v), w).
Proof. destruct v; simpl; try discriminate; reflexivity. Qed.

Section PaymentsMore.
Context {rt : Runtime} {sdk : Processor}.

(** X3.  For an amount that can be converted to a primitive (anything
    but an object with a [toString] property or an array holding one),
    create-payment-intent returns normally after sending exactly one
    response, with status 200 or 400, and calls the processor at most
    once; a 200 is only sent when that call succeeded. *)
Theorem createPaymentIntent_answers_once req w :
  printable (field "amount" (Payments.body req)) = true ->
  exists code body lines cs,
    Payments.createPaymentIntent req w =
    (Ret tt,
     {| log := log w ++ lines; calls := calls w ++ cs;
        responses := responses w ++ [(code, body)];
        entered := entered w |}) /\
    (code = 200 \/ code = 400) /\
    (length lines <= 1)%nat /\
    (length cs <= 1)%nat /\
    (code = 200 ->
     exists params paymentIntent,
       cs = [PaymentIntentsCreate params] /\
       paymentIntents_create params = Ret paymentIntent).
Proof.
  intros _. unfold Payments.createPaymentIntent; simpl.
  destruct (negb (truthy (field "amount" (Payments.body req)))
            || le_zero (field "amount" (Payments.body req))).
  - exists 400, Payments.invalid_amount, [], [].
    unfold res_status_json; rewrite !app_nil_r.
    repeat split; simpl; try tauto; try lia.
  - unfold try_catch, bind, sdk_call, lift; simpl.
    destruct (paymentIntents_create _) as [paymentIntent | e] eqn:Hc; simpl.
    + destruct (default_to (JStr "gbp") (field "currency" (Payments.body req)));
        simpl;
        (do 4 eexists; split; [ reflexivity | ];
         repeat split; simpl; try tauto; try lia; intros _; eauto).
    + do 4 eexists; split; [ reflexivity | ].
      repeat split; simpl; try tauto; try lia.
Qed.



(** X6.  What is sent to the processor: the caller's amount as it is, the
    caller's currency or ["gbp"] when there is none, automatic payment
    methods enabled, and a [customer] property exactly when the caller
    gave a truthy [customerId]. *)
Theorem createPaymentIntent_forwards (req : Payments.request) params :
  In (PaymentIntentsCreate params)
     (calls (snd (Payments.createPaymentIntent req empty_world))) ->
  lookup "amount" params = Some (field "amount" (Payments.body req)) /\
  lookup "currency" params =
    Some (match field "currency" (Payments.body req) with
          | JUndefined => JStr "gbp"
          | currency => currency
          end) /\
  lookup "automatic_payment_methods" params = Some (JObj [("enabled", JBool true)]) /\
  lookup "customer" params =
    (if truthy (field "customerId" (Payments.body req))
     then Some (field "customerId" (Payments.body req))
     else None).
Proof.
  intros Hin. rewrite createPaymentIntent_calls in Hin; simpl in Hin.
  destruct (negb (truthy (field "amount" (Payments.body req)))
            || le_zero (field "amount" (Payments.body req)));
    [ destruct Hin | ].
  destruct Hin as [Hin | []]. injection Hin as <-.
  unfold Payments.paymentIntentParams, default_to.
  destruct (truthy (field "customerId" (Payments.body req)));
    destruct (field "currency" (Payments.body req));
    repeat split; reflexivity.
Qed.


End PaymentsMore.



Lemma createPaymentIntent_forwards_example :
  lookup "amount"
    [("amount", JNum 5000); ("currency", JStr "gbp");
     ("automatic_payment_methods", JObj [("enabled", JBool true)]);
     ("metadata", JObj [("timestamp", JStr "2024-05-01T12:00:00.000Z")]);
     ("customer", JStr "cus_9")] = Some (JNum 5000) /\
  lookup "currency"
    [("amount", JNum 5000); ("currency", JStr "gbp");
     ("automatic_payment_methods", JObj [("enabled", JBool true)]);
     ("metadata", JObj [("timestamp", JStr "2024-05-01T12:00:00.000Z")]);
     ("customer", JStr "cus_9")] = Some (JStr "gbp") /\
  lookup "automatic_payment_methods"
    [("amount", JNum 5000); ("currency", JStr "gbp");
     ("automatic_payment_methods", JObj [("enabled", JBool true)]);
     ("metadata", JObj [("timestamp", JStr "2024-05-01T12:00:00.000Z")]);
     ("customer", JStr "cus_9")] = Some (JObj [("enabled", JBool true)]) /\
  lookup "customer"
    [("amount", JNum 5000); ("currency", JStr "gbp");
     ("automatic_payment_methods", JObj [("enabled", JBool true)]);
     ("metadata", JObj [("timestamp", JStr "2024-05-01T12:00:00.000Z")]);
     ("customer", JStr "cus_9")] = Some (JStr "cus_9").
Proof.
  exact (@createPaymentIntent_forwards Demo.runtime Demo.processor
           {| Payments.body := [("amount", JNum 5000); ("customerId", JStr "cus_9")] |}
           _ (or_introl eq_refl)).
Defined.


Section StatusMore.
Context {rt : Runtime} {sdk : Processor}.

(** X9.  get-payment-status always returns normally after sending exactly
    one response, with status 200, 400 or 404.  The processor is asked
    exactly when the id starts with [pi_], once and for that id, and
    the status is 400 exactly when it does not. *)
Theorem getPaymentStatus_answers_once id w :
  exists code body lines,
    Payments.getPaymentStatus id w =
    (Ret tt,
     {| log := log w ++ lines;
        calls := calls w ++
          (if String.prefix "pi_" id then [PaymentIntentsRetrieve id] else []);
        responses := responses w ++ [(code, body)];
        entered := entered w |}) /\
    (code = 200 \/ code = 400 \/ code = 404) /\
    (code = 400 <-> String.prefix "pi_" id = false).
Proof.
  unfold Payments.getPaymentStatus.
  destruct (String.prefix "pi_" id) eqn:Hp.
  - assert (Hid : truthy (JStr id) = true)
      by (destruct id; [ discriminate Hp | reflexivity ]).
    rewrite Hid; simpl.
    unfold try_catch, bind, sdk_call, lift, Payments.date_toISOString; simpl.
    destruct (paymentIntents_retrieve id) as [paymentIntent | e]; simpl.
    + destruct (Date_of_seconds_toISOString (field "created" paymentIntent));
        simpl.
      * unfold Payments.lastError, bind.
        destruct (truthy (field "last_payment_error" paymentIntent)) eqn:Ht.
        -- rewrite !(get_truthy _ _ _ Ht); simpl.
           exists 200; do 2 eexists; split;
             [ rewrite app_nil_r; reflexivity | ].
           split; [ tauto | split; intros H; discriminate H ].
        -- simpl. exists 200; do 2 eexists; split;
             [ rewrite app_nil_r; reflexivity | ].
           split; [ tauto | split; intros H; discriminate H ].
      * exists 404; do 2 eexists; split; [ reflexivity | ].
        split; [ tauto | split; intros H; discriminate H ].
    + exists 404; do 2 eexists; split; [ reflexivity | ].
      split; [ tauto | split; intros H; discriminate H ].
  - rewrite orb_true_r.
    exists 400, Payments.invalid_id, [].
    unfold res_status_json; rewrite !app_nil_r.
    split; [ reflexivity | split; [ tauto | split; reflexivity ] ].
Qed.

(** X10.  The success path: the response echoes the payment intent, renders
    its creation time, and reports its last payment error as
    [{code, message, declineCode}], or as [null] when there is none. *)
Theorem getPaymentStatus_found id paymentIntent iso w :
  String.prefix "pi_" id = true ->
  paymentIntents_retrieve id = Ret paymentIntent ->
  Date_of_seconds_toISOString (field "created" paymentIntent) = Some iso ->
  Payments.getPaymentStatus id w =
  (Ret tt,
   {| log := log w;
      calls := calls w ++ [PaymentIntentsRetrieve id];
      responses := responses w ++
        [(200,
          JObj [("id", field "id" paymentIntent);
                ("status", field "status" paymentIntent);
                ("amount", field "amount" paymentIntent);
                ("currency", field "currency" paymentIntent);
                ("customer", field "customer" paymentIntent);
                ("metadata", field "metadata" paymentIntent);
                ("created", JStr iso);
                ("lastError",
                 let error := field "last_payment_error" paymentIntent in
                 if truthy error
                 then JObj [("code", prop "code" error);
                            ("message", prop "message" error);
                            ("declineCode", prop "decline_code" error)]
                 else JNull)])];
      entered := entered w |}).
Proof.
  intros Hp Hr Hd. unfold Payments.getPaymentStatus.
  assert (Hid : truthy (JStr id) = true)
    by (destruct id; [ discriminate Hp | reflexivity ]).
  rewrite Hp, Hid; simpl.
  unfold try_catch, bind, sdk_call, lift, Payments.date_toISOString; simpl.
  rewrite Hr, Hd; simpl. unfold Payments.lastError, bind.
  destruct (truthy (field "last_payment_error" paymentIntent)) eqn:Ht.
  - rewrite !(get_truthy _ _ _ Ht); reflexivity.
  - reflexivity.
Qed.

(** X11.  A payment intent that exists but whose [created] field does not
    make a valid date is answered 404 "Invalid time value": the
    [RangeError] of [toISOString] lands in the same [catch] as a
    failed retrieval. *)
Theorem getPaymentStatus_invalid_date id paymentIntent w :
  String.prefix "pi_" id = true ->
  paymentIntents_retrieve id = Ret paymentIntent ->
  Date_of_seconds_toISOString (field "created" paymentIntent) = None ->
  Payments.getPaymentStatus id w =
  (Ret tt,
   {| log := log w ++
        [(stderr, [Lit "❌ Retrieve PaymentIntent failed:";
                   Interp (JStr "Invalid time value")])];
      calls := calls w ++ [PaymentIntentsRetrieve id];
      responses := responses w ++
        [(404, JObj [("error", JStr "Invalid time value")])];
      entered := entered w |}).
Proof.
  intros Hp Hr Hd. unfold Payments.getPaymentStatus.
  assert (Hid : truthy (JStr id) = true)
    by (destruct id; [ discriminate Hp | reflexivity ]).
  rewrite Hp, Hid; simpl.
  unfold try_catch, bind, sdk_call, lift, Payments.date_toISOString; simpl.
  rewrite Hr, Hd; reflexivity.
Qed.

End StatusMore.

Lemma getPaymentStatus_found_example :
  @Payments.getPaymentStatus Demo.runtime Demo.processor "pi_123" empty_world =
  (Ret tt,
   {| log := [];
      calls := [PaymentIntentsRetrieve "pi_123"];
      responses :=
        [(200,
          JObj [("id", JStr "pi_123");
                ("status", JStr "requires_payment_method");
                ("amount", JNum 5000);
                ("currency", JStr "gbp");
                ("customer", JUndefined);
                ("metadata", JUndefined);
                ("created", JStr "2024-05-01T11:59:00.000Z");
                ("lastError", JNull)])];
      entered := [] |}).
Proof.
  exact (@getPaymentStatus_found Demo.runtime Demo.processor "pi_123"
           Demo.paymentIntent _ empty_world eq_refl eq_refl eq_refl).
Defined.

Lemma getPaymentStatus_invalid_date_example :
  @Payments.getPaymentStatus Declining.runtime Declining.processor "pi_777"
    empty_world =
  (Ret tt,
   {| log :=
        [(stderr, [Lit "❌ Retrieve PaymentIntent failed:";
                   Interp (JStr "Invalid time value")])];
      calls := [PaymentIntentsRetrieve "pi_777"];
      responses := [(404, JObj [("error", JStr "Invalid time value")])];
      entered := [] |}).
Proof.
  exact (@getPaymentStatus_invalid_date Declining.runtime Declining.processor
           "pi_777" Declining.undated empty_world eq_refl eq_refl eq_refl).
Defined.

(** ** customers.js *)

Section CustomersMore.
Context {rt : Runtime} {sdk : Processor}.

(** X12.  create-customer asks the processor exactly when [email] is truthy:
    a missing, [null], empty, [false] or zero email is answered 400
    "Email is required" with nothing logged and no call, and any other
    value, string or not, is forwarded in one call together with the
    caller's [name] and [phone]. *)
Theorem createCustomer_email_gate req w :
  let email := field "email" (Customers.body req) in
  (truthy email = false ->
   Customers.createCustomer req w =
   (Ret tt,
    {| log := log w; calls := calls w;
       responses := responses w ++
         [(400, JObj [("error", JStr "Email is required to create a Customer")])];
       entered := entered w |})) /\
  (truthy email = true ->
   exists params,
     calls (snd (Customers.createCustomer req w)) =
       calls w ++ [CustomersCreate params] /\
     lookup "email" params = Some email /\
     lookup "name" params = Some (field "name" (Customers.body req)) /\
     lookup "phone" params = Some (field "phone" (Customers.body req))).
Proof.
  simpl; split; intros He; unfold Customers.createCustomer; rewrite He; simpl.
  - reflexivity.
  - exists (Customers.customerParams (field "email" (Customers.body req))
              (field "name" (Customers.body req))
              (field "phone" (Customers.body req))
              (default_to (JObj []) (field "metadata" (Customers.body req)))).
    split; [ | repeat split; reflexivity ].
    pose proof (createCustomer_calls req w He) as Hcalls.
    unfold Customers.createCustomer in Hcalls; rewrite He in Hcalls.
    exact Hcalls.
Qed.

(** X13.  When the processor refuses the customer, the handler answers 400
    with the processor's message and error type, after one line on the
    error console. *)
Theorem createCustomer_processor_error req err w :
  let email := field "email" (Customers.body req) in
  let params :=
    Customers.customerParams email
      (field "name" (Customers.body req)) (field "phone" (Customers.body req))
      (default_to (JObj []) (field "metadata" (Customers.body req))) in
  truthy email = true ->
  customers_create params = Throw err ->
  Customers.createCustomer req w =
  (Ret tt,
   {| log := log w ++
        [(stderr, [Lit "❌ Customer creation failed:"; Interp (message err)])];
      calls := calls w ++ [CustomersCreate params];
      responses := responses w ++
        [(400, JObj [("error", message err); ("type", type err)])];
      entered := entered w |}).
Proof.
  simpl; intros He Hc. unfold Customers.createCustomer; rewrite He; simpl.
  unfold try_catch, bind, sdk_call, lift; simpl. rewrite Hc. reflexivity.
Qed.

(** X14.  The success path, for an email that can be printed (a string
    always can): the response carries the id, email and name of the
    customer the processor returned, its creation time, and the
    dashboard link built from its id. *)
Theorem createCustomer_success req customer iso w :
  let email := field "email" (Customers.body req) in
  let params :=
    Customers.customerParams email
      (field "name" (Customers.body req)) (field "phone" (Customers.body req))
      (default_to (JObj []) (field "metadata" (Customers.body req))) in
  truthy email = true ->
  printable email = true ->
  customers_create params = Ret customer ->
  Date_of_seconds_toISOString (field "created" customer) = Some iso ->
  Customers.createCustomer req w =
  (Ret tt,
   {| log := log w ++
        [(stdout, [Lit "👤 Customer created: "; Interp (field "id" customer);
                   Lit " | "; Interp email])];
      calls := calls w ++ [CustomersCreate params];
      responses := responses w ++
        [(200, JObj [("customerId", field "id" customer);
                     ("email", field "email" customer);
                     ("name", field "name" customer);
                     ("created", JStr iso);
                     ("dashboardUrl",
                      JStr ("https://dashboard.stripe.com/test/customers/"
                            ++ ToString (field "id" customer)))])];
      entered := entered w |}).
Proof.
  simpl; intros He Hp Hc Hd. unfold Customers.createCustomer; rewrite He; simpl.
  unfold try_catch, bind, sdk_call, lift, Payments.date_toISOString,
    interp, to_primitive; simpl.
  rewrite Hc; simpl. rewrite Hp; simpl. rewrite Hd. reflexivity.
Qed.

(** X15.  For an email that can be printed, a customer whose [created]
    field does not make a valid date has been created at the processor
    and is logged as created, yet the caller is answered 400 "Invalid
    time value". *)
Theorem createCustomer_invalid_date req customer w :
  let email := field "email" (Customers.body req) in
  let params :=
    Customers.customerParams email
      (field "name" (Customers.body req)) (field "phone" (Customers.body req))
      (default_to (JObj []) (field "metadata" (Customers.body req))) in
  truthy email = true ->
  printable email = true ->
  customers_create params = Ret customer ->
  Date_of_seconds_toISOString (field "created" customer) = None ->
  Customers.createCustomer req w =
  (Ret tt,
   {| log := log w ++
        [(stdout, [Lit "👤 Customer created: "; Interp (field "id" customer);
                   Lit " | "; Interp email]);
         (stderr, [Lit "❌ Customer creation failed:";
                   Interp (JStr "Invalid time value")])];
      calls := calls w ++ [CustomersCreate params];
      responses := responses w ++
        [(400, JObj [("error", JStr "Invalid time value"); ("type", JUndefined)])];
      entered := entered w |}).
Proof.
  simpl; intros He Hp Hc Hd. unfold Customers.createCustomer; rewrite He; simpl.
  unfold try_catch, bind, sdk_call, lift, Payments.date_toISOString,
    interp, to_primitive; simpl.
  rewrite Hc; simpl. rewrite Hp; simpl. rewrite Hd; simpl.
  now rewrite <- app_assoc.
Qed.

End CustomersMore.

Lemma createCustomer_email_gate_example :
  @Customers.createCustomer Demo.runtime Demo.processor
    {| Customers.body := [("email", JStr ""); ("name", JStr "Test User")] |}
    empty_world =
  (Ret tt,
   {| log := []; calls := [];
      responses :=
        [(400, JObj [("error", JStr "Email is required to create a Customer")])];
      entered := [] |}) /\
  exists params,
    calls (snd (@Customers.createCustomer Demo.runtime Demo.processor
                  {| Customers.body := [("email", JNum 42)] |} empty_world)) =
      [] ++ [CustomersCreate params] /\
    lookup "email" params = Some (JNum 42) /\
    lookup "name" params = Some JUndefined /\
    lookup "phone" params = Some JUndefined.
Proof.
  split.
  - exact (proj1 (@createCustomer_email_gate Demo.runtime Demo.processor
                    {| Customers.body := [("email", JStr "");
                                          ("name", JStr "Test User")] |}
                    empty_world) eq_refl).
  - exact (proj2 (@createCustomer_email_gate Demo.runtime Demo.processor
                    {| Customers.body := [("email", JNum 42)] |}
                    empty_world) eq_refl).
Defined.

Lemma createCustomer_processor_error_example :
  @Customers.createCustomer Demo.runtime Declining.processor
    {| Customers.body := [("email", JStr "nobody")] |} empty_world =
  (Ret tt,
   {| log :=
        [(stderr, [Lit "❌ Customer creation failed:";
                   Interp (JStr "Invalid email address: nobody")])];
      calls :=
        [CustomersCreate
           [("email", JStr "nobody"); ("name", JUndefined); ("phone", JUndefined);
            ("metadata", JObj [("created_at", JStr "2024-05-01T12:00:00.000Z")])]];
      responses :=
        [(400, JObj [("error", JStr "Invalid email address: nobody");
                     ("type", JStr "StripeInvalidRequestError")])];
      entered := [] |}).
Proof.
  exact (@createCustomer_processor_error Demo.runtime Declining.processor
           {| Customers.body := [("email", JStr "nobody")] |}
           Declining.request_error empty_world eq_refl eq_refl).
Defined.

Lemma createCustomer_success_example :
  @Customers.createCustomer Demo.runtime Demo.processor
    {| Customers.body := [("email", JStr "user@example.com")] |} empty_world =
  (Ret tt,
   {| log :=
        [(stdout, [Lit "👤 Customer created: "; Interp (JStr "cus_9");
                   Lit " | "; Interp (JStr "user@example.com")])];
      calls :=
        [CustomersCreate
           [("email", JStr "user@example.com"); ("name", JUndefined);
            ("phone", JUndefined);
            ("metadata", JObj [("created_at", JStr "2024-05-01T12:00:00.000Z")])]];
      responses :=
        [(200, JObj [("customerId", JStr "cus_9");
                     ("email", JStr "user@example.com");
                     ("name", JStr "Test User");
                     ("created", JStr "2024-05-01T11:59:00.000Z");
                     ("dashboardUrl",
                      JStr "https://dashboard.stripe.com/test/customers/cus_9")])];
      entered := [] |}).
Proof.
  exact (@createCustomer_success Demo.runtime Demo.processor
           {| Customers.body := [("email", JStr "user@example.com")] |}
           Demo.customer _ empty_world eq_refl eq_refl eq_refl eq_refl).
Defined.

Lemma createCustomer_invalid_date_example :
  @Customers.createCustomer Declining.runtime Declining.processor
    {| Customers.body := [("email", JStr "user@example.com")] |} empty_world =
  (Ret tt,
   {| log :=
        [(stdout, [Lit "👤 Customer created: "; Interp (JStr "pi_777");
                   Lit " | "; Interp (JStr "user@example.com")]);
         (stderr, [Lit "❌ Customer creation failed:";
                   Interp (JStr "Invalid time value")])];
      calls :=
        [CustomersCreate
           [("email", JStr "user@example.com"); ("name", JUndefined);
            ("phone", JUndefined);
            ("metadata", JObj [("created_at", JStr "2024-05-01T12:00:00.000Z")])]];
      responses :=
        [(400, JObj [("error", JStr "Invalid time value"); ("type", JUndefined)])];
      entered := [] |}).
Proof.
  exact (@createCustomer_invalid_date Declining.runtime Declining.processor
           {| Customers.body := [("email", JStr "user@example.com")] |}
           Declining.undated empty_world eq_refl eq_refl eq_refl eq_refl).
Defined.

(** ** test-scenarios.js *)

Lemma runs_ret {A} (a : A) : runs (Ret a) [] (ret a).
Proof.
  exists []; intros [l c r e]; unfold ret; simpl; now rewrite !app_nil_r.
Qed.

Lemma runs_console_log text : runs (Ret tt) [] (console_log text).
Proof.
  exists [(stdout, text)]; intros w; unfold console_log; now rewrite app_nil_r.
Qed.

Lemma runs_console_error text : runs (Ret tt) [] (console_error text).
Proof.
  exists [(stderr, text)]; intros w; unfold console_error; now rewrite app_nil_r.
Qed.

Lemma runs_sdk_call c : runs (Ret tt) [c] (sdk_call c).
Proof.
  exists []; intros w; unfold sdk_call; now rewrite app_nil_r.
Qed.

Lemma runs_lift {A} (r : outcome A) : runs r [] (lift r).
Proof.
  exists []; intros [l c rs e]; unfold lift; simpl; now rewrite !app_nil_r.
Qed.

Lemma runs_bind {A B} a r cs1 cs2 (m : M A) (k : A -> M B) :
  runs (Ret a) cs1 m -> runs r cs2 (k a) -> runs r (cs1 ++ cs2) (bind m k).
Proof.
  intros (l1 & H1) (l2 & H2). exists (l1 ++ l2); intros w.
  unfold bind; rewrite H1, H2; simpl. now rewrite !app_assoc.
Qed.

Lemma runs_bind_throw {A B} e cs (m : M A) (k : A -> M B) :
  runs (Throw e) cs m -> runs (Throw e) cs (bind m k).
Proof.
  intros (l1 & H1). exists l1; intros w. unfold bind; now rewrite H1.
Qed.

Lemma runs_try_ret {A} (a : A) cs (m : M A) handler :
  runs (Ret a) cs m -> runs (Ret a) cs (try_catch m handler).
Proof.
  intros (l1 & H1). exists l1; intros w. unfold try_catch; now rewrite H1.
Qed.

Lemma runs_try_throw {A} e r cs1 cs2 (m : M A) handler :
  runs (Throw e) cs1 m -> runs r cs2 (handler e) ->
  runs r (cs1 ++ cs2) (try_catch m handler).
Proof.
  intros (l1 & H1) (l2 & H2). exists (l1 ++ l2); intros w.
  unfold try_catch; rewrite H1, H2; simpl. now rewrite !app_assoc.
Qed.

Lemma runs_console_log_all texts :
  runs (Ret tt) [] (Scenarios.console_log_all texts).
Proof.
  induction texts as [| text rest IH]; simpl.
  - apply runs_ret.
  - exact (runs_bind tt (Ret tt) [] [] _ _ (runs_console_log text) IH).
Qed.

(** Sequencing after a step that makes no call. *)
Lemma runs_then {A B} a r cs (m : M A) (k : A -> M B) :
  runs (Ret a) [] m -> runs r cs (k a) -> runs r cs (bind m k).
Proof. intros H1 H2. exact (runs_bind a r [] cs m k H1 H2). Qed.

Lemma runs_get_opt v k :
  exists x, runs (Ret x) [] (get_opt v k) /\
            x = (if is_nullish v then JUndefined else prop k v).
Proof.
  unfold get_opt. destruct v; simpl; eexists; split;
    try apply runs_ret; reflexivity.
Qed.

Ltac runs_step :=
  lazymatch goal with
  | |- runs _ _ (ret _) => apply runs_ret
  | |- runs _ _ (console_log _) => apply runs_console_log
  | |- runs _ _ (console_error _) => apply runs_console_error
  | |- runs _ _ (Scenarios.console_log_all _) => apply runs_console_log_all
  | |- runs _ _ (bind (console_log _) _) =>
      eapply runs_then; [ apply runs_console_log | ]
  | |- runs _ _ (bind (console_error _) _) =>
      eapply runs_then; [ apply runs_console_error | ]
  | |- runs _ _ (bind (Scenarios.console_log_all _) _) =>
      eapply runs_then; [ apply runs_console_log_all | ]
  | |- runs _ _ (bind (ret _) _) =>
      eapply runs_then; [ apply runs_ret | ]
  end.

Ltac runs_steps :=
  repeat first
    [ runs_step
    | lazymatch goal with
      | |- runs _ _ (bind (bind _ _) _) =>
          eapply runs_then; [ repeat runs_step | ]
      end ].

Section ScenarioSteps.
Context {rt : Runtime} {sdk : Processor} {details : ErrorDetails}.

Lemma testPayment_runs label paymentMethod amount currency code :
  printable label = true ->
  printable (default_to (JNum 5000) amount) = true ->
  printable paymentMethod = true ->
  default_to (JStr "gbp") currency = JStr code ->
  let params :=
    Scenarios.testPaymentParams label paymentMethod
      (default_to (JNum 5000) amount) (JStr code) in
  runs (Ret match paymentIntents_create params with
            | Ret paymentIntent =>
                JObj [("success", JBool true);
                      ("id", field "id" paymentIntent);
                      ("status", field "status" paymentIntent)]
            | Throw error =>
                JObj [("success", JBool false);
                      ("code", error_code error);
                      ("message", message error)]
            end)
       [PaymentIntentsCreate params]
       (Scenarios.testPayment label paymentMethod amount currency).
Proof.
  intros Hl Ha Hm Hcur; simpl. unfold Scenarios.testPayment; rewrite Hcur.
  runs_step. rewrite (interp_printable _ Hl). do 2 runs_step.
  rewrite (interp_div100_printable _ Ha). runs_step.
  unfold Payments.toUpperCase. do 2 runs_step.
  rewrite (interp_printable _ Hm). do 2 runs_step.
  destruct (paymentIntents_create _) as [paymentIntent | e] eqn:Hc.
  - apply runs_try_ret.
    apply (runs_bind tt _ [PaymentIntentsCreate _] []); [ apply runs_sdk_call | ].
    rewrite ?Hc. eapply runs_then; [ apply runs_lift | ].
    runs_steps.
  - apply (runs_try_throw e _ [PaymentIntentsCreate _] []).
    + apply (runs_bind tt _ [PaymentIntentsCreate _] []); [ apply runs_sdk_call | ].
      apply runs_bind_throw. rewrite ?Hc. apply runs_lift.
    + do 2 runs_step.
      destruct (runs_get_opt (error_raw e) "decline_code") as (x & Hx & ->).
      eapply runs_then; [ exact Hx | ].
      destruct (error_raw e) as [ | | ? | ? | ? | ? | raw ];
        cbn [is_nullish prop truthy]; try solve [ runs_steps ].
      destruct (truthy (field "decline_code" raw)); cbn [get]; runs_steps.
Qed.

Lemma testCustomerFlow_runs :
  let linked customer :=
    PaymentIntentsCreate (Scenarios.linkedPaymentParams (field "id" customer)) in
  runs (Ret match customers_create Scenarios.demoCustomerParams with
            | Ret customer =>
                match paymentIntents_create
                        (Scenarios.linkedPaymentParams (field "id" customer)) with
                | Ret paymentIntent =>
                    JObj [("customerId", field "id" customer);
                          ("paymentIntentId", field "id" paymentIntent)]
                | Throw _ => JUndefined
                end
            | Throw _ => JUndefined
            end)
       (CustomersCreate Scenarios.demoCustomerParams ::
        match customers_create Scenarios.demoCustomerParams with
        | Ret customer => [linked customer]
        | Throw _ => []
        end)
       Scenarios.testCustomerFlow.
Proof.
  simpl. unfold Scenarios.testCustomerFlow. do 2 runs_step.
  destruct (customers_create _) as [customer | e] eqn:Hc.
  - destruct (paymentIntents_create _) as [paymentIntent | e] eqn:Hp.
    + apply runs_try_ret.
      apply (runs_bind tt _ [CustomersCreate _] [PaymentIntentsCreate _]);
        [ apply runs_sdk_call | ].
      rewrite ?Hc. eapply runs_then; [ apply runs_lift | ]. runs_step.
      apply (runs_bind tt _ [PaymentIntentsCreate _] []); [ apply runs_sdk_call | ].
      rewrite ?Hp. eapply runs_then; [ apply runs_lift | ].
      repeat runs_step.
    + apply (runs_try_throw e _ [CustomersCreate _; PaymentIntentsCreate _] []).
      * apply (runs_bind tt _ [CustomersCreate _] [PaymentIntentsCreate _]);
          [ apply runs_sdk_call | ].
        rewrite ?Hc. eapply runs_then; [ apply runs_lift | ]. runs_step.
        apply (runs_bind tt _ [PaymentIntentsCreate _] []); [ apply runs_sdk_call | ].
        apply runs_bind_throw. rewrite ?Hp. apply runs_lift.
      * repeat runs_step.
  - apply (runs_try_throw e _ [CustomersCreate _] []).
    + apply (runs_bind tt _ [CustomersCreate _] []); [ apply runs_sdk_call | ].
      apply runs_bind_throw. rewrite ?Hc. apply runs_lift.
    + repeat runs_step.
Qed.

Lemma testRetrieve_runs id :
  runs match paymentIntents_retrieve id with
       | Ret pi =>
           match Date_of_seconds_toISOString (field "created" pi) with
           | Some _ => Ret tt
           | None => Throw {| message := JStr "Invalid time value";
                              type := JUndefined |}
           end
       | Throw e => Throw e
       end
       [PaymentIntentsRetrieve id]
       (Scenarios.testRetrieve id).
Proof.
  unfold Scenarios.testRetrieve. do 2 runs_step.
  apply (runs_bind tt _ [PaymentIntentsRetrieve _] []); [ apply runs_sdk_call | ].
  destruct (paymentIntents_retrieve id) as [pi | e].
  - eapply runs_then; [ apply runs_lift | ]. do 2 runs_step.
    unfold Payments.date_toISOString.
    destruct (Date_of_seconds_toISOString _).
    + repeat runs_step.
    + apply runs_bind_throw. exists []; intros [l c r en]; unfold throw; simpl.
      now rewrite !app_nil_r.
  - apply runs_bind_throw. apply runs_lift.
Qed.

End ScenarioSteps.

Section ScenarioProps.
Context {rt : Runtime} {sdk : Processor} {details : ErrorDetails}.

(** X16.  With a label, an amount and a payment method that can be
    printed and a string currency (or none, which means "gbp"),
    [testPayment] never throws: it makes one confirming create call for
    the given payment method, tagged with the label, and returns
    [{success: true, id, status}] when the processor accepts and
    [{success: false, code, message}] when it declines. *)
Theorem testPayment_reports label paymentMethod amount currency code w :
  printable label = true ->
  printable (default_to (JNum 5000) amount) = true ->
  printable paymentMethod = true ->
  default_to (JStr "gbp") currency = JStr code ->
  let params :=
    [("amount", default_to (JNum 5000) amount);
     ("currency", JStr code);
     ("payment_method", paymentMethod);
     ("confirm", JBool true);
     ("return_url", JStr "https://example.com/return");
     ("metadata", JObj [("test_scenario", label);
                        ("timestamp", JStr Date_now_toISOString)])] in
  let run := Scenarios.testPayment label paymentMethod amount currency w in
  fst run =
    Ret match paymentIntents_create params with
        | Ret paymentIntent =>
            JObj [("success", JBool true);
                  ("id", field "id" paymentIntent);
                  ("status", field "status" paymentIntent)]
        | Throw error =>
            JObj [("success", JBool false);
                  ("code", error_code error);
                  ("message", message error)]
        end /\
  calls (snd run) = calls w ++ [PaymentIntentsCreate params] /\
  responses (snd run) = responses w.
Proof.
  intros Hl Ha Hm Hcur; simpl.
  destruct (testPayment_runs label paymentMethod amount currency code
              Hl Ha Hm Hcur) as (lines & Hrun).
  rewrite Hrun; simpl. repeat split.
Qed.

(** X17.  A currency that is given but is not a string makes [testPayment]
    throw while printing its heading, before the processor is
    contacted: that line is outside the [try]. *)
Theorem testPayment_currency_not_a_string label paymentMethod amount currency w :
  match currency with JUndefined | JStr _ => False | _ => True end ->
  exists msg,
    fst (Scenarios.testPayment label paymentMethod amount currency w) =
      Throw (TypeError msg) /\
    calls (snd (Scenarios.testPayment label paymentMethod amount currency w)) =
      calls w.
Proof.
  intros Hcur.
  unfold Scenarios.testPayment, bind, console_log, interp, interp_div100,
    to_primitive, ret, throw.
  destruct (printable label);
    [ destruct (printable (default_to (JNum 5000) amount)) | ];
    destruct currency; try contradiction; simpl; eexists; split; reflexivity.
Qed.

(** X18.  [testCustomerFlow] never throws.  It creates the demo customer and
    then a payment of 9900 linked to the id the processor returned for
    that customer; when the customer cannot be created no payment is
    attempted, and whenever a call fails the result is [undefined]. *)
Theorem testCustomerFlow_links w :
  let run := Scenarios.testCustomerFlow w in
  match customers_create Scenarios.demoCustomerParams with
  | Throw _ =>
      fst run = Ret JUndefined /\
      calls (snd run) = calls w ++ [CustomersCreate Scenarios.demoCustomerParams]
  | Ret customer =>
      let params := Scenarios.linkedPaymentParams (field "id" customer) in
      calls (snd run) =
        calls w ++ [CustomersCreate Scenarios.demoCustomerParams;
                    PaymentIntentsCreate params] /\
      lookup "customer" params = Some (field "id" customer) /\
      lookup "amount" params = Some (JNum 9900) /\
      fst run =
        Ret match paymentIntents_create params with
            | Ret paymentIntent =>
                JObj [("customerId", field "id" customer);
                      ("paymentIntentId", field "id" paymentIntent)]
            | Throw _ => JUndefined
            end
  end.
Proof.
  simpl. destruct testCustomerFlow_runs as (lines & Hrun). rewrite Hrun; simpl.
  destruct (customers_create Scenarios.demoCustomerParams); repeat split.
Qed.

(** X19.  [testRetrieve] has no [try]: an exception of the processor's
    retrieve call, or the [RangeError] of an invalid creation date,
    leaves the function; otherwise it returns after the one call. *)
Theorem testRetrieve_unguarded id w :
  fst (Scenarios.testRetrieve id w) =
    match paymentIntents_retrieve id with
    | Ret pi =>
        match Date_of_seconds_toISOString (field "created" pi) with
        | Some _ => Ret tt
        | None => Throw {| message := JStr "Invalid time value";
                           type := JUndefined |}
        end
    | Throw e => Throw e
    end /\
  calls (snd (Scenarios.testRetrieve id w)) = calls w ++ [PaymentIntentsRetrieve id].
Proof.
  destruct (testRetrieve_runs id) as (lines & Hrun). rewrite Hrun; simpl.
  split; reflexivity.
Qed.

Variable testRetrieve_other : jsval -> M unit.

(** X20.  A declined first payment does not stop the suite: the remaining
    payments and the customer flow are still run, in order, and the
    suite completes; only the retrieval step is skipped, because there
    is no payment intent id to look up. *)
Theorem runAllScenarios_first_payment_declined e :
  paymentIntents_create
    (Scenarios.testPaymentParams (JStr "Successful payment (Visa)")
       (JStr "pm_card_visa") (JNum 5000) (JStr "gbp")) = Throw e ->
  runs (Ret tt)
    (suite_payments ++
     CustomersCreate Scenarios.demoCustomerParams ::
     match customers_create Scenarios.demoCustomerParams with
     | Ret customer =>
         [PaymentIntentsCreate (Scenarios.linkedPaymentParams (field "id" customer))]
     | Throw _ => []
     end)
    (Scenarios.runAllScenarios testRetrieve_other).
Proof.
  intros H1. unfold Scenarios.runAllScenarios. runs_step.
  change suite_payments with
    ([PaymentIntentsCreate
        (Scenarios.testPaymentParams (JStr "Successful payment (Visa)")
           (JStr "pm_card_visa") (JNum 5000) (JStr "gbp"))] ++
     [PaymentIntentsCreate
        (Scenarios.testPaymentParams (JStr "Generic card decline")
           (JStr "pm_card_visa_chargeDeclined") (JNum 2000) (JStr "gbp"))] ++
     [PaymentIntentsCreate
        (Scenarios.testPaymentParams (JStr "Insufficient funds decline")
           (JStr "pm_card_visa_chargeDeclinedInsufficientFunds") (JNum 15000)
           (JStr "gbp"))] ++
     [PaymentIntentsCreate
        (Scenarios.testPaymentParams (JStr "UK Visa card (GBP)")
           (JStr "pm_card_gb_visa") (JNum 7500) (JStr "gbp"))]).
  rewrite <- !app_assoc.
  eapply runs_bind;
    [ refine (testPayment_runs (JStr "Successful payment (Visa)") _ (JNum 5000)
                (JStr "gbp") "gbp" _ _ _ _); reflexivity | ].
  do 3 (eapply runs_bind;
        [ refine (testPayment_runs _ _ _ (JStr "gbp") "gbp" _ _ _ _);
          reflexivity | ]).
  rewrite <- (app_nil_r (_ :: _)).
  eapply runs_bind; [ exact testCustomerFlow_runs | ].
  match goal with
  | |- context [ paymentIntents_create ?p ] =>
      match type of H1 with
      | paymentIntents_create ?q = _ => change p with q
      end
  end.
  rewrite H1.
  eapply runs_then; [ apply runs_ret | ].
  match goal with
  | |- context [ truthy ?v ] => change (truthy v) with false
  end.
  cbv iota. repeat runs_step.
Qed.

(** X21.  When the first payment succeeds with a non-empty string id (a
    truthy one), the
    suite ends by retrieving exactly that payment intent, after the
    four payments and the customer flow.  The retrieval is unguarded:
    if it throws, so does the suite, and the summary is not printed. *)
Theorem runAllScenarios_retrieves_first_payment paymentIntent id :
  paymentIntents_create
    (Scenarios.testPaymentParams (JStr "Successful payment (Visa)")
       (JStr "pm_card_visa") (JNum 5000) (JStr "gbp")) = Ret paymentIntent ->
  field "id" paymentIntent = JStr id ->
  truthy (JStr id) = true ->
  runs match paymentIntents_retrieve id with
       | Ret pi =>
           match Date_of_seconds_toISOString (field "created" pi) with
           | Some _ => Ret tt
           | None => Throw {| message := JStr "Invalid time value";
                              type := JUndefined |}
           end
       | Throw e => Throw e
       end
    (suite_payments ++
     (CustomersCreate Scenarios.demoCustomerParams ::
      match customers_create Scenarios.demoCustomerParams with
      | Ret customer =>
          [PaymentIntentsCreate (Scenarios.linkedPaymentParams (field "id" customer))]
      | Throw _ => []
      end) ++
     [PaymentIntentsRetrieve id])
    (Scenarios.runAllScenarios testRetrieve_other).
Proof.
  intros H1 Hid Ht. unfold Scenarios.runAllScenarios. runs_step.
  change suite_payments with
    ([PaymentIntentsCreate
        (Scenarios.testPaymentParams (JStr "Successful payment (Visa)")
           (JStr "pm_card_visa") (JNum 5000) (JStr "gbp"))] ++
     [PaymentIntentsCreate
        (Scenarios.testPaymentParams (JStr "Generic card decline")
           (JStr "pm_card_visa_chargeDeclined") (JNum 2000) (JStr "gbp"))] ++
     [PaymentIntentsCreate
        (Scenarios.testPaymentParams (JStr "Insufficient funds decline")
           (JStr "pm_card_visa_chargeDeclinedInsufficientFunds") (JNum 15000)
           (JStr "gbp"))] ++
     [PaymentIntentsCreate
        (Scenarios.testPaymentParams (JStr "UK Visa card (GBP)")
           (JStr "pm_card_gb_visa") (JNum 7500) (JStr "gbp"))]).
  rewrite <- !app_assoc.
  eapply runs_bind;
    [ refine (testPayment_runs (JStr "Successful payment (Visa)") _ (JNum 5000)
                (JStr "gbp") "gbp" _ _ _ _); reflexivity | ].
  do 3 (eapply runs_bind;
        [ refine (testPayment_runs _ _ _ (JStr "gbp") "gbp" _ _ _ _);
          reflexivity | ]).
  eapply runs_bind; [ exact testCustomerFlow_runs | ].
  match goal with
  | |- context [ paymentIntents_create ?p ] =>
      match type of H1 with
      | paymentIntents_create ?q = _ => change p with q
      end
  end.
  rewrite H1.
  eapply runs_then; [ apply runs_ret | ].
  change (field "id" [("success", JBool true); ("id", field "id" paymentIntent);
                      ("status", field "status" paymentIntent)])
    with (field "id" paymentIntent).
  rewrite Hid, Ht.
  pose proof (testRetrieve_runs id) as Hr.
  destruct (paymentIntents_retrieve id) as [pi | e];
    [ destruct (Date_of_seconds_toISOString (field "created" pi)) | ].
  - apply (runs_bind tt _ [PaymentIntentsRetrieve id] []); [ exact Hr | ].
    runs_steps.
  - apply runs_bind_throw; exact Hr.
  - apply runs_bind_throw; exact Hr.
Qed.

End ScenarioProps.

Lemma testPayment_reports_example :
  let run :=
    @Scenarios.testPayment Demo.runtime Declining.processor Declining.details
      (JStr "Generic card decline") (JStr "pm_card_visa_chargeDeclined")
      (JNum 2000) JUndefined empty_world in
  fst run = Ret (JObj [("success", JBool false);
                       ("code", JStr "card_declined");
                       ("message", JStr "Your card was declined.")]) /\
  calls (snd run) =
    [PaymentIntentsCreate
       [("amount", JNum 2000); ("currency", JStr "gbp");
        ("payment_method", JStr "pm_card_visa_chargeDeclined");
        ("confirm", JBool true);
        ("return_url", JStr "https://example.com/return");
        ("metadata", JObj [("test_scenario", JStr "Generic card decline");
                           ("timestamp", JStr "2024-05-01T12:00:00.000Z")])]] /\
  responses (snd run) = [].
Proof.
  exact (@testPayment_reports Demo.runtime Declining.processor Declining.details
           (JStr "Generic card decline") (JStr "pm_card_visa_chargeDeclined")
           (JNum 2000) JUndefined "gbp" empty_world
           eq_refl eq_refl eq_refl eq_refl).
Defined.

Lemma testPayment_currency_not_a_string_example :
  exists msg,
    fst (@Scenarios.testPayment Demo.runtime Demo.processor Declining.details
           (JStr "Odd currency") (JStr "pm_card_visa") (JNum 2000) (JNum 826)
           empty_world) = Throw (TypeError msg) /\
    calls (snd (@Scenarios.testPayment Demo.runtime Demo.processor Declining.details
                  (JStr "Odd currency") (JStr "pm_card_visa") (JNum 2000) (JNum 826)
                  empty_world)) = [].
Proof.
  exact (@testPayment_currency_not_a_string Demo.runtime Demo.processor
           Declining.details (JStr "Odd currency") (JStr "pm_card_visa")
           (JNum 2000) (JNum 826) empty_world I).
Defined.

Lemma runAllScenarios_first_payment_declined_example :
  runs (Ret tt)
    (@suite_payments Demo.runtime ++
     [CustomersCreate Scenarios.demoCustomerParams;
      PaymentIntentsCreate (Scenarios.linkedPaymentParams (JStr "pi_777"))])
    (@Scenarios.runAllScenarios Demo.runtime Declining.processor Declining.details
       (fun _ => ret tt)).
Proof.
  exact (@runAllScenarios_first_payment_declined Demo.runtime Declining.processor
           Declining.details (fun _ => ret tt) Declining.card_error eq_refl).
Defined.

Lemma runAllScenarios_retrieves_first_payment_example :
  runs (Ret tt)
    (@suite_payments Demo.runtime ++
     [CustomersCreate Scenarios.demoCustomerParams;
      PaymentIntentsCreate (Scenarios.linkedPaymentParams (JStr "cus_9"))] ++
     [PaymentIntentsRetrieve "pi_123"])
    (@Scenarios.runAllScenarios Demo.runtime Demo.processor Declining.details
       (fun _ => ret tt)).
Proof.
  exact (@runAllScenarios_retrieves_first_payment Demo.runtime Demo.processor
           Declining.details (fun _ => ret tt) Demo.paymentIntent "pi_123"
           eq_refl eq_refl eq_refl).
Defined.

(** ** The amount check, seen from both sides *)

Section AmountGate.
Context {rt : Runtime} {sdk : Processor}.

(** X8.  A missing, [null], zero or negative amount is answered 400 without
    a processor call; every positive number, whole or fractional, passes
    the check and is forwarded to the processor as it is. *)
Theorem createPaymentIntent_amount_gate req w :
  let amount := field "amount" (Payments.body req) in
  (amount = JUndefined \/ amount = JNull \/
   (exists q, amount = JNum q /\ (q <= 0)%Q) ->
   Payments.createPaymentIntent req w =
   (Ret tt,
    {| log := log w; calls := calls w;
       responses := responses w ++
         [(400, JObj [("error",
                       JStr "Amount must be a positive integer (in pence/cents)")])];
       entered := entered w |})) /\
  (forall q, amount = JNum q -> (0 < q)%Q ->
   exists params,
     calls (snd (Payments.createPaymentIntent req w)) =
       calls w ++ [PaymentIntentsCreate params] /\
     lookup "amount" params = Some (JNum q)).
Proof.
  simpl; split.
  - unfold Payments.createPaymentIntent.
    intros [-> | [-> | (q & -> & Hq)]]; try reflexivity.
    unfold le_zero; simpl.
    apply Qle_bool_iff in Hq; rewrite Hq, orb_true_r. reflexivity.
  - intros q Hq Hpos. rewrite createPaymentIntent_calls; simpl. rewrite Hq.
    assert (Hz : Qeq_bool q 0 = false).
    { destruct (Qeq_bool q 0) eqn:E; [ | reflexivity ].
      apply Qeq_bool_iff in E. rewrite E in Hpos.
      exfalso; exact (Qlt_irrefl 0 Hpos). }
    assert (Hl : Qle_bool q 0 = false).
    { destruct (Qle_bool q 0) eqn:E; [ | reflexivity ].
      apply Qle_bool_iff in E.
      exfalso; exact (Qlt_not_le _ _ Hpos E). }
    unfold le_zero; simpl. rewrite Hz, Hl; simpl.
    eexists; split; [ reflexivity | ].
    unfold Payments.paymentIntentParams.
    destruct (truthy (field "customerId" (Payments.body req))); reflexivity.
Qed.

End AmountGate.

Lemma createPaymentIntent_amount_gate_example :
  @Payments.createPaymentIntent Demo.runtime Demo.processor
    {| Payments.body := [("amount", JNum (-5))] |} empty_world =
  (Ret tt,
   {| log := []; calls := [];
      responses :=
        [(400, JObj [("error",
                      JStr "Amount must be a positive integer (in pence/cents)")])];
      entered := [] |}) /\
  exists params,
    calls (snd (@Payments.createPaymentIntent Demo.runtime Demo.processor
                  {| Payments.body := [("amount", JNum (1 # 3))] |} empty_world)) =
      [] ++ [PaymentIntentsCreate params] /\
    lookup "amount" params = Some (JNum (1 # 3)).
Proof.
  split.
  - refine (proj1 (@createPaymentIntent_amount_gate Demo.runtime Demo.processor
                     {| Payments.body := [("amount", JNum (-5))] |} empty_world) _).
    right; right; exists (-5)%Q; split; [ reflexivity | ].
    unfold Qle; simpl; lia.
  - refine (proj2 (@createPaymentIntent_amount_gate Demo.runtime Demo.processor
                     {| Payments.body := [("amount", JNum (1 # 3))] |} empty_world)
              (1 # 3)%Q eq_refl _).
    reflexivity.
Defined.

(** ** server.js *)

Lemma substring_prefix (p s : string) :
  String.substring 0 (String.length p) (p ++ s) = p.
Proof.
  induction p as [| c p IH]; simpl.
  - destruct s; reflexivity.
  - now rewrite IH.
Qed.

(** X22.  The start-up log shows at most the first 14 characters of the
    secret key: two keys that agree on them produce the same console
    output (a key of 14 characters or fewer is shown whole). *)
Theorem startup_log_shows_key_prefix_only port shown rest1 rest2 w :
  String.length shown = 14%nat ->
  log (snd (Server.on_listening port (JStr (shown ++ rest1)) w)) =
  log (snd (Server.on_listening port (JStr (shown ++ rest2)) w)) /\
  log (snd (Server.on_listening port (JStr (shown ++ rest1)) w)) =
  log w ++
    [(stdout, [Lit "✅ Stripe sandbox server running on http://localhost:";
               Interp (Server.PORT port)]);
     (stdout, [Lit "🔑 Using Stripe key: "; Interp (JStr shown); Lit "..."]);
     (stdout, [Lit "📌 Environment: Test mode (sandbox)"])].
Proof.
  intros Hlen.
  assert (H : forall rest, String.substring 0 14 (shown ++ rest) = shown)
    by (intros rest; rewrite <- Hlen; apply substring_prefix).
  unfold Server.on_listening, Server.key_prefix, bind, ret, console_log.
  cbn [fst snd log]. rewrite !H, <- !app_assoc. split; reflexivity.
Qed.

Lemma startup_log_shows_key_prefix_only_example :
  log (snd (Server.on_listening JUndefined (JStr ("sk_test_51Abcd" ++ "EfGhSecret"))
              empty_world)) =
  log (snd (Server.on_listening JUndefined (JStr ("sk_test_51Abcd" ++ "other"))
              empty_world)).
Proof.
  exact (proj1 (startup_log_shows_key_prefix_only JUndefined "sk_test_51Abcd"
                  "EfGhSecret" "other" empty_world eq_refl)).
Defined.

Lemma createPaymentIntent_answers_once_example :
  exists code body lines cs,
    @Payments.createPaymentIntent Demo.runtime Demo.processor
      {| Payments.body := [("amount", JNum 5000)] |} empty_world =
    (Ret tt,
     {| log := [] ++ lines; calls := [] ++ cs;
        responses := [] ++ [(code, body)];
        entered := [] |}) /\
    (code = 200 \/ code = 400) /\
    (length lines <= 1)%nat /\
    (length cs <= 1)%nat /\
    (code = 200 ->
     exists params paymentIntent,
       cs = [PaymentIntentsCreate params] /\
       @paymentIntents_create Demo.processor params = Ret paymentIntent).
Proof.
  exact (@createPaymentIntent_answers_once Demo.runtime Demo.processor
           {| Payments.body := [("amount", JNum 5000)] |} empty_world eq_refl).
Defined.
